(** * CLIProxyAPI: thinking continuity, stream translation and thinking
      configuration -- a shallow embedding of the Go sources.

    Strings are Go strings, that is byte sequences: a Rocq [string] is a
    list of [ascii] (one per byte), [String.length] is Go's [len].
    Maps ([sync.Map], Go maps) are stdpp [gmap]s.  Reads of the clock
    ([time.Now()]) are an explicit argument [now]. *)

From Stdlib Require Import ZArith List Ascii String Lia Bool.
From stdpp Require Import base gmap strings.

Import ListNotations.
Local Open Scope string_scope.
Local Open Scope Z_scope.

(* ===================================================================== *)
(** * Part I: definitions                                                 *)
(* ===================================================================== *)

(** ** Byte strings *)

Definition byte_of (c : ascii) : Z := Z.of_N (N_of_ascii c).
Definition ascii_of (z : Z) : ascii := ascii_of_N (Z.to_N (z mod 256)).

Fixpoint bytes_of_string (s : string) : list Z :=
  match s with
  | EmptyString => []
  | String c r => byte_of c :: bytes_of_string r
  end.

(** Go's [s[:n]]; every use below is on a string at least [n] long. *)
Fixpoint str_take (n : nat) (s : string) : string :=
  match n, s with
  | S k, String c r => String c (str_take k r)
  | _, _ => EmptyString
  end.

Fixpoint str_drop (n : nat) (s : string) : string :=
  match n, s with
  | S k, String _ r => str_drop k r
  | _, _ => s
  end.

Fixpoint str_forall (p : ascii -> bool) (s : string) : bool :=
  match s with
  | EmptyString => true
  | String c r => p c && str_forall p r
  end.

Definition is_empty (s : string) : bool :=
  match s with EmptyString => true | _ => false end.

(** [strings.HasPrefix s p], with the prefix first as in [String.prefix]. *)
Fixpoint has_prefix (p s : string) : bool :=
  match p, s with
  | EmptyString, _ => true
  | String a p', String b s' => Ascii.eqb a b && has_prefix p' s'
  | String _ _, EmptyString => false
  end.

(** [strings.Contains s sub]. *)
Fixpoint contains (sub s : string) : bool :=
  has_prefix sub s ||
  match s with
  | EmptyString => false
  | String _ r => contains sub r
  end.

(** ** crypto/sha256 and encoding/hex *)

Module SHA256.

Definition w32 (x : Z) : Z := x mod 2 ^ 32.
Definition add32 (x y : Z) : Z := w32 (x + y).
Definition rotr (n x : Z) : Z :=
  Z.lor (Z.shiftr x n) (w32 (Z.shiftl x (32 - n))).
Definition shr (n x : Z) : Z := Z.shiftr x n.
Definition not32 (x : Z) : Z := 2 ^ 32 - 1 - x.

Definition Ch (x y z : Z) : Z := Z.lxor (Z.land x y) (Z.land (not32 x) z).
Definition Maj (x y z : Z) : Z :=
  Z.lxor (Z.lxor (Z.land x y) (Z.land x z)) (Z.land y z).
Definition Sigma0 (x : Z) : Z := Z.lxor (Z.lxor (rotr 2 x) (rotr 13 x)) (rotr 22 x).
Definition Sigma1 (x : Z) : Z := Z.lxor (Z.lxor (rotr 6 x) (rotr 11 x)) (rotr 25 x).
Definition sigma0 (x : Z) : Z := Z.lxor (Z.lxor (rotr 7 x) (rotr 18 x)) (shr 3 x).
Definition sigma1 (x : Z) : Z := Z.lxor (Z.lxor (rotr 17 x) (rotr 19 x)) (shr 10 x).

(** The first sixty-four primes. *)
Definition primes : list Z :=
  [ 2; 3; 5; 7; 11; 13; 17; 19; 23; 29; 31; 37; 41; 43; 47; 53; 59; 61; 67;
    71; 73; 79; 83; 89; 97; 101; 103; 107; 109; 113; 127; 131; 137; 139; 149;
    151; 157; 163; 167; 173; 179; 181; 191; 193; 197; 199; 211; 223; 227;
    229; 233; 239; 241; 251; 257; 263; 269; 271; 277; 281; 283; 293; 307;
    311 ].

(** The integer cube root below [2 ^ bits], found bit by bit from the
    top. *)
Fixpoint cube_root (bits : nat) (n r : Z) : Z :=
  match bits with
  | O => r
  | S k =>
      let c := r + 2 ^ Z.of_nat k in
      cube_root k n (if c * c * c <=? n then c else r)
  end.

(** The round constants: the first 32 bits of the fractional parts of
    the cube roots of the primes. *)
Definition K : list Z :=
  Eval vm_compute in map (fun p => w32 (cube_root 36 (p * 2 ^ 96) 0)) primes.

Record state := mkState
  { h0 : Z; h1 : Z; h2 : Z; h3 : Z; h4 : Z; h5 : Z; h6 : Z; h7 : Z }.

(** The initial hash value: the first 32 bits of the fractional parts
    of the square roots of the first eight primes. *)
Definition frac_sqrt (p : Z) : Z := w32 (Z.sqrt (p * 2 ^ 64)).

Definition init : state :=
  Eval vm_compute in
    mkState (frac_sqrt 2) (frac_sqrt 3) (frac_sqrt 5) (frac_sqrt 7)
            (frac_sqrt 11) (frac_sqrt 13) (frac_sqrt 17) (frac_sqrt 19).

(** Padding: the byte 0x80, zeros up to 56 modulo 64, then the bit
    length as eight big-endian bytes. *)
Definition be_bytes (n : nat) (x : Z) : list Z :=
  map (fun i => (Z.shiftr x (8 * Z.of_nat i)) mod 256) (rev (seq 0 n)).

Definition pad (msg : list Z) : list Z :=
  let len := Z.of_nat (List.length msg) in
  let zeros := Z.to_nat ((55 - len) mod 64) in
  msg ++ [0x80] ++ repeat 0 zeros ++ be_bytes 8 (8 * len).

Fixpoint be_word (bs : list Z) (acc : Z) : Z :=
  match bs with
  | [] => acc
  | b :: r => be_word r (acc * 256 + b)
  end.

(** The sixteen message words of one 64-byte block. *)
Fixpoint words (n : nat) (bs : list Z) : list Z :=
  match n with
  | O => []
  | S k => be_word (firstn 4 bs) 0 :: words k (skipn 4 bs)
  end.

(** The message schedule, built newest-first: [rw] holds
    [W(t-1); W(t-2); ...]. *)
Fixpoint schedule (n : nat) (rw : list Z) : list Z :=
  match n with
  | O => rev rw
  | S k =>
      let w := add32 (add32 (sigma1 (nth 1 rw 0)) (nth 6 rw 0))
                     (add32 (sigma0 (nth 14 rw 0)) (nth 15 rw 0)) in
      schedule k (w :: rw)
  end.

Definition round (s : state) (kw : Z * Z) : state :=
  let '(k, w) := kw in
  let t1 := add32 (add32 (add32 (h7 s) (Sigma1 (h4 s)))
                         (add32 (Ch (h4 s) (h5 s) (h6 s)) k)) w in
  let t2 := add32 (Sigma0 (h0 s)) (Maj (h0 s) (h1 s) (h2 s)) in
  mkState (add32 t1 t2) (h0 s) (h1 s) (h2 s)
          (add32 (h3 s) t1) (h4 s) (h5 s) (h6 s).

Definition compress (s : state) (block : list Z) : state :=
  let w := schedule 48 (rev (words 16 block)) in
  let r := fold_left round (combine K w) s in
  mkState (add32 (h0 s) (h0 r)) (add32 (h1 s) (h1 r))
          (add32 (h2 s) (h2 r)) (add32 (h3 s) (h3 r))
          (add32 (h4 s) (h4 r)) (add32 (h5 s) (h5 r))
          (add32 (h6 s) (h6 r)) (add32 (h7 s) (h7 r)).

Fixpoint blocks (n : nat) (bs : list Z) (s : state) : state :=
  match n with
  | O => s
  | S k => blocks k (skipn 64 bs) (compress s (firstn 64 bs))
  end.

Definition digest_words (s : state) : list Z :=
  [h0 s; h1 s; h2 s; h3 s; h4 s; h5 s; h6 s; h7 s].

(** [sha256.Sum256]: the 32 digest bytes. *)
Definition Sum256 (msg : list Z) : list Z :=
  let p := pad msg in
  let s := blocks (List.length p / 64) p init in
  flat_map (be_bytes 4) (digest_words s).

End SHA256.

Definition hexdigit (n : Z) : ascii :=
  match n with
  | 0 => "0" | 1 => "1" | 2 => "2" | 3 => "3" | 4 => "4" | 5 => "5"
  | 6 => "6" | 7 => "7" | 8 => "8" | 9 => "9" | 10 => "a" | 11 => "b"
  | 12 => "c" | 13 => "d" | 14 => "e" | _ => "f"
  end%char.

(** [hex.EncodeToString]: two lower-case digits per byte. *)
Fixpoint EncodeToString (bs : list Z) : string :=
  match bs with
  | [] => EmptyString
  | b :: r =>
      String (hexdigit ((b / 16) mod 16))
        (String (hexdigit (b mod 16)) (EncodeToString r))
  end.

(** ** internal/cache/signature_cache.go *)

(** [time.Time] and [time.Duration] in nanoseconds. *)
Definition Time := Z.
Definition Duration := Z.

Definition Hour : Duration := 3600 * 1000000000.
Definition maxDuration : Duration := 2 ^ 63 - 1.
Definition minDuration : Duration := - 2 ^ 63.

(** [t.Sub(u)]: the difference, saturated at the ends of [int64]. *)
Definition Sub (t u : Time) : Duration :=
  let d := t - u in
  if d >? maxDuration then maxDuration
  else if d <? minDuration then minDuration
  else d.

Record SignatureEntry := mkSignatureEntry
  { seSignature : string; seTimestamp : Time }.

Definition SignatureCacheTTL : Duration := 2 * Hour.
Definition SignatureTextHashLen : nat := 16.
Definition MinValidSignatureLen : nat := 50.

(** [signatureCache]: sessionId -> textHash -> SignatureEntry *)
Definition sessionCache := gmap string SignatureEntry.

Definition hashText (text : string) : string :=
  str_take SignatureTextHashLen
    (EncodeToString (SHA256.Sum256 (bytes_of_string text))).

(** [getOrCreateSession] returns the session's bucket and the cache with
    that bucket present.  (The background sweep that it starts,
    [purgeExpiredSessions], runs beside the requests and is left out: it
    removes only entries that a lookup would find expired.) *)
Definition getOrCreateSession (sessionID : string)
    (signatureCache : gmap string sessionCache)
    : sessionCache * gmap string sessionCache :=
  match signatureCache !! sessionID with
  | Some sc => (sc, signatureCache)
  | None => (∅, <[sessionID := ∅]> signatureCache)
  end.

Definition CacheSignature (now : Time) (sessionID text signature : string)
    (signatureCache : gmap string sessionCache) : gmap string sessionCache :=
  if is_empty sessionID || is_empty text || is_empty signature then
    signatureCache
  else if (String.length signature <? MinValidSignatureLen)%nat then
    signatureCache
  else
    let '(sc, cache1) := getOrCreateSession sessionID signatureCache in
    let textHash := hashText text in
    <[sessionID := <[textHash := mkSignatureEntry signature now]> sc]> cache1.

Definition GetCachedSignature (now : Time) (sessionID text : string)
    (signatureCache : gmap string sessionCache)
    : string * gmap string sessionCache :=
  if is_empty sessionID || is_empty text then ("", signatureCache)
  else
    match signatureCache !! sessionID with
    | None => ("", signatureCache)
    | Some sc =>
        let textHash := hashText text in
        match sc !! textHash with
        | None => ("", signatureCache)
        | Some entry =>
            if Sub now (seTimestamp entry) >? SignatureCacheTTL then
              ("", <[sessionID := delete textHash sc]> signatureCache)
            else
              (* Refresh TTL on access (sliding expiration). *)
              let entry' := mkSignatureEntry (seSignature entry) now in
              (seSignature entry',
               <[sessionID := <[textHash := entry']> sc]> signatureCache)
        end
    end.

Definition HasValidSignature (signature : string) : bool :=
  negb (is_empty signature)
  && (MinValidSignatureLen <=? String.length signature)%nat.

Record ThinkingEntry := mkThinkingEntry
  { ThinkingText : string; Signature : string; Timestamp : Time }.

Definition ThinkingCacheTTL : Duration := 2 * Hour.
Definition ThinkingIDLen : nat := 32.

Definition GenerateThinkingID (thinkingText : string) : string :=
  str_take ThinkingIDLen
    (EncodeToString (SHA256.Sum256 (bytes_of_string thinkingText))).

(** [thinkingCache]: thinkingId -> ThinkingEntry *)
Definition CacheThinking (now : Time) (thinkingID thinkingText signature : string)
    (thinkingCache : gmap string ThinkingEntry) : gmap string ThinkingEntry :=
  if is_empty thinkingID || is_empty thinkingText then thinkingCache
  else
    <[thinkingID := mkThinkingEntry thinkingText signature now]> thinkingCache.

(** [time.Since(t)] is [time.Now().Sub(t)]. *)
Definition GetCachedThinking (now : Time) (thinkingID : string)
    (thinkingCache : gmap string ThinkingEntry)
    : option ThinkingEntry * gmap string ThinkingEntry :=
  if is_empty thinkingID then (None, thinkingCache)
  else
    match thinkingCache !! thinkingID with
    | None => (None, thinkingCache)
    | Some entry =>
        if Sub now (Timestamp entry) >? ThinkingCacheTTL then
          (None, delete thinkingID thinkingCache)
        else (Some entry, thinkingCache)
    end.

(** ** Regular expressions of the request translator

    Go's [regexp] finds the leftmost match, and at that position the one
    a backtracking engine finds first.  A compiled pattern is represented
    by its anchored matcher: on a string [s] it returns the first
    capture group and what follows the match when the pattern matches a
    prefix of [s].  The four patterns of the translator consist of ASCII
    literals, the lazy [[\s\S]*?] (any bytes, as few as possible) and the
    greedy class [[a-f0-9]+], so matching bytes and matching runes agree. *)

Definition regex := string -> option (string * string).

(** Split at the first occurrence of [p]: what precedes it and what
    follows it. *)
Fixpoint find_sub (p s : string) : option (string * string) :=
  if has_prefix p s then Some (EmptyString, str_drop (String.length p) s)
  else
    match s with
    | EmptyString => None
    | String c r =>
        match find_sub p r with
        | Some (b, a) => Some (String c b, a)
        | None => None
        end
    end.

(** [open([\s\S]*?)close] *)
Definition lazy_between (open close : string) : regex := fun s =>
  if has_prefix open s then find_sub close (str_drop (String.length open) s)
  else None.

Fixpoint span (p : ascii -> bool) (s : string) : string * string :=
  match s with
  | EmptyString => (EmptyString, EmptyString)
  | String c r =>
      if p c then let '(h, t) := span p r in (String c h, t)
      else (EmptyString, s)
  end.

Definition in_range (lo hi c : ascii) : bool :=
  (nat_of_ascii lo <=? nat_of_ascii c)%nat && (nat_of_ascii c <=? nat_of_ascii hi)%nat.

(** The class [[a-f0-9]]. *)
Definition is_hex_lower (c : ascii) : bool :=
  in_range "a" "f" c || in_range "0" "9" c.

(** [open([a-f0-9]+)close], where [close] starts with a character
    outside the class: the greedy run is the only candidate. *)
Definition hex_between (open close : string) : regex := fun s =>
  if has_prefix open s then
    let '(h, r) := span is_hex_lower (str_drop (String.length open) s) in
    if is_empty h then None
    else if has_prefix close r then Some (h, str_drop (String.length close) r)
    else None
  else None.

Definition fence : string := "```".
Definition newline : string := String (ascii_of_nat 10) EmptyString.

(** [<think>([\s\S]*?)</think>] *)
Definition thinkTagRegex : regex := lazy_between "<think>" "</think>".
(** [```plaintext:thinkId:([a-f0-9]+)```] *)
Definition thinkIdRegex : regex := hex_between "```plaintext:thinkId:" fence.
(** [```plaintext:Thinking\n([\s\S]*?)```] *)
Definition legacyThinkingRegex : regex :=
  lazy_between ("```plaintext:Thinking" ++ newline) fence.
(** [```plaintext:Signature:([\s\S]*?)```] *)
Definition legacySignatureRegex : regex :=
  lazy_between "```plaintext:Signature:" fence.

(** The leftmost match: the text before it, its first group, the text
    after it. *)
Fixpoint regex_find (re : regex) (s : string) : option (string * string * string) :=
  match re s with
  | Some (g, a) => Some (EmptyString, g, a)
  | None =>
      match s with
      | EmptyString => None
      | String c r =>
          match regex_find re r with
          | Some (b, g, a) => Some (String c b, g, a)
          | None => None
          end
      end
  end.

(** [re.FindStringSubmatch(s)]: [None] is the nil slice, [Some g] a slice
    whose element 1 is [g]. *)
Definition FindStringSubmatch (re : regex) (s : string) : option string :=
  match regex_find re s with
  | Some (_, g, _) => Some g
  | None => None
  end.

(** [re.ReplaceAllString(s, "")]: every match, found left to right after
    the end of the previous one, is removed.  A match is never empty, so
    [String.length s] rounds are enough. *)
Fixpoint remove_matches (fuel : nat) (re : regex) (s : string) : string :=
  match fuel with
  | O => s
  | S k =>
      match regex_find re s with
      | Some (b, _, a) => b ++ remove_matches k re a
      | None => s
      end
  end.

Definition ReplaceAllString (re : regex) (s : string) : string :=
  remove_matches (String.length s) re s.

(** [strings.ReplaceAll(s, old, new)] for a non-empty [old]. *)
Fixpoint replace_sub (fuel : nat) (old new s : string) : string :=
  match fuel with
  | O => s
  | S k =>
      match find_sub old s with
      | Some (b, a) => b ++ new ++ replace_sub k old new a
      | None => s
      end
  end.

Definition ReplaceAll (s old new : string) : string :=
  replace_sub (String.length s) old new s.

(** ** strings.TrimSpace

    White space is [unicode.IsSpace]: the six ASCII characters, U+0085,
    U+00A0, U+1680, U+2000..U+200A, U+2028, U+2029, U+202F, U+205F and
    U+3000, the last ones in their UTF-8 encodings. *)

Definition asciiSpace (c : ascii) : bool :=
  match nat_of_ascii c with
  | 9%nat | 10%nat | 11%nat | 12%nat | 13%nat | 32%nat => true
  | _ => false
  end.

Definition b1 (c : ascii) (n : nat) : bool := Nat.eqb (nat_of_ascii c) n.

(** The encoded white-space runes of two and of three bytes. *)
Definition space2 (c d : ascii) : bool :=
  b1 c 194 && (b1 d 133 || b1 d 160).

Definition space3 (c d e : ascii) : bool :=
  (b1 c 225 && b1 d 154 && b1 e 128)
  || (b1 c 226 && b1 d 128
      && ((128 <=? nat_of_ascii e)%nat && (nat_of_ascii e <=? 138)%nat
          || b1 e 168 || b1 e 169 || b1 e 175))
  || (b1 c 226 && b1 d 129 && b1 e 159)
  || (b1 c 227 && b1 d 128 && b1 e 128).

(** [strings.TrimLeftFunc(s, unicode.IsSpace)] *)
Fixpoint TrimLeftSpace (s : string) : string :=
  match s with
  | EmptyString => EmptyString
  | String c r =>
      if asciiSpace c then TrimLeftSpace r
      else
        match r with
        | String d r' =>
            if space2 c d then TrimLeftSpace r'
            else
              match r' with
              | String e r'' => if space3 c d e then TrimLeftSpace r'' else s
              | EmptyString => s
              end
        | EmptyString => s
        end
  end.

Fixpoint str_rev_onto (s acc : string) : string :=
  match s with
  | EmptyString => acc
  | String c r => str_rev_onto r (String c acc)
  end.

Definition str_rev (s : string) : string := str_rev_onto s EmptyString.

(** The same on the reversed string: the bytes of a rune come last
    byte first. *)
Fixpoint TrimLeftSpaceRev (s : string) : string :=
  match s with
  | EmptyString => EmptyString
  | String c r =>
      if asciiSpace c then TrimLeftSpaceRev r
      else
        match r with
        | String d r' =>
            if space2 d c then TrimLeftSpaceRev r'
            else
              match r' with
              | String e r'' => if space3 e d c then TrimLeftSpaceRev r'' else s
              | EmptyString => s
              end
        | EmptyString => s
        end
  end.

(** [strings.TrimRightFunc(s, unicode.IsSpace)]: the last rune is found
    by [utf8.DecodeLastRuneInString], which steps back over continuation
    bytes to the lead byte. *)
Definition TrimRightSpace (s : string) : string :=
  str_rev (TrimLeftSpaceRev (str_rev s)).

Definition TrimSpace (s : string) : string := TrimRightSpace (TrimLeftSpace s).

(** ** translator/claude/openai/chat-completions: request side *)

(** An item of a message's [content] array as built by
    [extractThinkingFromContent]: a thinking block, with its [signature]
    field when the map has one, or a text block. *)
Inductive ContentPart :=
| ThinkingPart (thinking : string) (signature : option string)
| TextPart (text : string).

Definition textPart (remainingText : string) : list ContentPart :=
  if is_empty remainingText then [] else [TextPart remainingText].

(** The result, and the thinking cache after the lookup. *)
Definition extractThinkingFromContent (now : Time) (text : string)
    (thinkingCache : gmap string ThinkingEntry)
    : list ContentPart * gmap string ThinkingEntry :=
  let legacy (cache : gmap string ThinkingEntry) :=
    match FindStringSubmatch legacyThinkingRegex text,
          FindStringSubmatch legacySignatureRegex text with
    | Some thinkingText, Some signatureText =>
        let remainingText := ReplaceAllString legacyThinkingRegex text in
        let remainingText := ReplaceAllString legacySignatureRegex remainingText in
        let remainingText := TrimSpace remainingText in
        (ThinkingPart thinkingText (Some signatureText) :: textPart remainingText,
         cache)
    | _, _ =>
        let cleanText := ReplaceAllString thinkTagRegex text in
        let cleanText := ReplaceAllString thinkIdRegex cleanText in
        let cleanText := ReplaceAllString legacyThinkingRegex cleanText in
        let cleanText := ReplaceAllString legacySignatureRegex cleanText in
        let cleanText := TrimSpace cleanText in
        (textPart cleanText, cache)
    end in
  match FindStringSubmatch thinkIdRegex text with
  | Some thinkingID =>
      let '(entry, cache1) := GetCachedThinking now thinkingID thinkingCache in
      let restored :=
        match entry with
        | Some e => if HasValidSignature (Signature e) then Some e else None
        | None => None
        end in
      match restored with
      | Some e =>
          let remainingText := ReplaceAllString thinkTagRegex text in
          let remainingText := ReplaceAllString thinkIdRegex remainingText in
          let remainingText := TrimSpace remainingText in
          (ThinkingPart (ThinkingText e) (Some (Signature e))
             :: textPart remainingText, cache1)
      | None =>
          match FindStringSubmatch thinkTagRegex text with
          | Some thinkingText =>
              let thinkingText := ReplaceAll thinkingText "\`\`\`" "```" in
              let thinkingText := TrimSpace thinkingText in
              let remainingText := ReplaceAllString thinkTagRegex text in
              let remainingText := ReplaceAllString thinkIdRegex remainingText in
              let remainingText := TrimSpace remainingText in
              (ThinkingPart thinkingText None :: textPart remainingText, cache1)
          | None => legacy cache1
          end
      end
  | None => legacy thinkingCache
  end.

(** ** translator/claude/openai/chat-completions: response side

    One line of the backend's event stream, as [gjson] reads it: the
    [type] selects the constructor, an [option] field is [None] when the
    JSON field does not exist.  [NotData] is a line without the [data:]
    prefix, [UnknownEvent] any other [type]. *)

Inductive ContentBlock :=
| ToolUseBlock (id name : string)
| ThinkingBlock
| OtherBlock.

Inductive Delta :=
| TextDelta (text : option string)
| ThinkingDelta (thinking : option string)
| SignatureDelta (signature : option string)
| InputJSONDelta (partial_json : option string)
| OtherDelta.

Record Usage := mkUsage
  { input_tokens : Z; output_tokens : Z;
    cache_read_input_tokens : Z; cache_creation_input_tokens : Z }.

Inductive Event :=
| NotData
| MessageStart (message_id : option string)
| ContentBlockStart (index : Z) (content_block : option ContentBlock)
| ContentBlockDelta (index : Z) (delta : option Delta)
| ContentBlockStop (index : Z)
| MessageDelta (stop_reason : option string) (usage : option Usage)
| MessageStop
| Ping
| ErrorEvent (error : option (string * string))
| UnknownEvent.

Record ToolCallAccumulator := mkToolCallAccumulator
  { tcID : string; tcName : string; tcArguments : string }.

Record ThinkingAccumulator := mkThinkingAccumulator
  { taThinking : string; taSignature : string }.

(** [ConvertAnthropicResponseToOpenAIParams]; a map field is [None] while
    it is nil. *)
Record Params := mkParams
  { CreatedAt : Z;
    ResponseID : string;
    FinishReason : string;
    ToolCallsAccumulator : option (gmap Z ToolCallAccumulator);
    ThinkingAccumulatorMap : option (gmap Z ThinkingAccumulator) }.

Definition initParams : Params := mkParams 0 "" "" None None.

Record ToolCallDelta := mkToolCallDelta
  { tdIndex : Z; tdID : string; tdType : string;
    tdName : string; tdArguments : string }.

(** The streaming template
    [{"id","object":"chat.completion.chunk","created","model",
      "choices":[{"index":0,"delta":{...},"finish_reason":null}]}]
    with the fields the translator sets. *)
Record Chunk := mkChunk
  { chunkID : string;
    chunkCreated : Z;
    chunkModel : string;
    deltaRole : option string;
    deltaContent : option string;
    deltaToolCall : option ToolCallDelta;
    finishReason : option string;
    chunkUsage : option Usage }.

Inductive Output :=
| OutChunk (c : Chunk)
| OutError (message type : string).

Definition mapAnthropicStopReasonToOpenAI (anthropicReason : string) : string :=
  if String.eqb anthropicReason "end_turn" then "stop"
  else if String.eqb anthropicReason "tool_use" then "tool_calls"
  else if String.eqb anthropicReason "max_tokens" then "length"
  else if String.eqb anthropicReason "stop_sequence" then "stop"
  else "stop".

Definition setContent (t : Chunk) (c : string) : Chunk :=
  mkChunk (chunkID t) (chunkCreated t) (chunkModel t) (deltaRole t)
          (Some c) (deltaToolCall t) (finishReason t) (chunkUsage t).

Definition accOrEmpty {A} (m : option (gmap Z A)) : gmap Z A :=
  match m with Some m => m | None => ∅ end.

(** The state threaded through the calls on one stream: the caller's
    [param] and the process-wide thinking cache. *)
Definition StreamState : Type := Params * gmap string ThinkingEntry.

Definition ConvertClaudeResponseToOpenAI (now : Time) (modelName : string)
    (ev : Event) (st : StreamState) : list Output * StreamState :=
  let '(param, cache) := st in
  let template :=
    mkChunk (ResponseID param)
            (if CreatedAt param >? 0 then CreatedAt param else 0)
            modelName None None None None None in
  match ev with
  | NotData => ([], st)
  | MessageStart message =>
      match message with
      | Some id =>
          let created := now / 1000000000 in
          let param' :=
            mkParams created id (FinishReason param)
              (Some (accOrEmpty (ToolCallsAccumulator param)))
              (Some (accOrEmpty (ThinkingAccumulatorMap param))) in
          ([OutChunk (mkChunk id created modelName (Some "assistant")
                        None None None None)],
           (param', cache))
      | None => ([OutChunk template], st)
      end
  | ContentBlockStart index content_block =>
      match content_block with
      | Some (ToolUseBlock toolCallID toolName) =>
          let acc := accOrEmpty (ToolCallsAccumulator param) in
          let param' :=
            mkParams (CreatedAt param) (ResponseID param) (FinishReason param)
              (Some (<[index := mkToolCallAccumulator toolCallID toolName ""]> acc))
              (ThinkingAccumulatorMap param) in
          ([], (param', cache))
      | Some ThinkingBlock =>
          let acc := accOrEmpty (ThinkingAccumulatorMap param) in
          let param' :=
            mkParams (CreatedAt param) (ResponseID param) (FinishReason param)
              (ToolCallsAccumulator param)
              (Some (<[index := mkThinkingAccumulator "" ""]> acc)) in
          ([OutChunk (setContent template ("<think>" ++ newline))],
           (param', cache))
      | _ => ([], st)
      end
  | ContentBlockDelta index delta =>
      match delta with
      | Some (TextDelta (Some text)) =>
          ([OutChunk (setContent template text)], st)
      | Some (ThinkingDelta (Some originalThinkingText)) =>
          let accs :=
            match ThinkingAccumulatorMap param with
            | Some m =>
                match m !! index with
                | Some a =>
                    Some (<[index :=
                            mkThinkingAccumulator
                              (taThinking a ++ originalThinkingText)
                              (taSignature a)]> m)
                | None => Some m
                end
            | None => None
            end in
          let param' :=
            mkParams (CreatedAt param) (ResponseID param) (FinishReason param)
              (ToolCallsAccumulator param) accs in
          ([OutChunk (setContent template originalThinkingText)],
           (param', cache))
      | Some (SignatureDelta signature) =>
          let accs :=
            match signature, ThinkingAccumulatorMap param with
            | Some sig, Some m =>
                match m !! index with
                | Some a =>
                    Some (<[index :=
                            mkThinkingAccumulator (taThinking a)
                              (taSignature a ++ sig)]> m)
                | None => Some m
                end
            | _, accs => accs
            end in
          ([], (mkParams (CreatedAt param) (ResponseID param)
                  (FinishReason param) (ToolCallsAccumulator param) accs,
                cache))
      | Some (InputJSONDelta partial_json) =>
          let accs :=
            match partial_json, ToolCallsAccumulator param with
            | Some pj, Some m =>
                match m !! index with
                | Some a =>
                    Some (<[index :=
                            mkToolCallAccumulator (tcID a) (tcName a)
                              (tcArguments a ++ pj)]> m)
                | None => Some m
                end
            | _, accs => accs
            end in
          ([], (mkParams (CreatedAt param) (ResponseID param)
                  (FinishReason param) accs (ThinkingAccumulatorMap param),
                cache))
      | _ => ([], st)
      end
  | ContentBlockStop index =>
      match accOrEmpty (ToolCallsAccumulator param) !! index with
      | Some accumulator =>
          let arguments :=
            if is_empty (tcArguments accumulator) then "{}"
            else tcArguments accumulator in
          let chunk :=
            mkChunk (chunkID template) (chunkCreated template)
              (chunkModel template) None None
              (Some (mkToolCallDelta index (tcID accumulator) "function"
                       (tcName accumulator) arguments))
              None None in
          let param' :=
            mkParams (CreatedAt param) (ResponseID param) (FinishReason param)
              (Some (delete index (accOrEmpty (ToolCallsAccumulator param))))
              (ThinkingAccumulatorMap param) in
          ([OutChunk chunk], (param', cache))
      | None =>
          match accOrEmpty (ThinkingAccumulatorMap param) !! index with
          | Some accumulator =>
              let thinkingText := taThinking accumulator in
              let signatureText := taSignature accumulator in
              let thinkingID := GenerateThinkingID thinkingText in
              let cache' :=
                if is_empty thinkingText then cache
                else CacheThinking now thinkingID thinkingText signatureText cache in
              let closingContent :=
                newline ++ "</think>" ++ newline ++ "```plaintext:thinkId:"
                ++ thinkingID ++ "```" ++ newline in
              let param' :=
                mkParams (CreatedAt param) (ResponseID param)
                  (FinishReason param) (ToolCallsAccumulator param)
                  (Some (delete index (accOrEmpty (ThinkingAccumulatorMap param)))) in
              ([OutChunk (setContent template closingContent)], (param', cache'))
          | None => ([], st)
          end
      end
  | MessageDelta stop_reason usage =>
      let reason :=
        match stop_reason with
        | Some sr => Some (mapAnthropicStopReasonToOpenAI sr)
        | None => None
        end in
      let param' :=
        match reason with
        | Some r =>
            mkParams (CreatedAt param) (ResponseID param) r
              (ToolCallsAccumulator param) (ThinkingAccumulatorMap param)
        | None => param
        end in
      ([OutChunk (mkChunk (chunkID template) (chunkCreated template)
                    (chunkModel template) None None None reason usage)],
       (param', cache))
  | MessageStop => ([], st)
  | Ping => ([], st)
  | ErrorEvent error =>
      match error with
      | Some (message, type) => ([OutError message type], st)
      | None => ([], st)
      end
  | UnknownEvent => ([], st)
  end.

(** The translator run over a stream, one call per event, each with the
    clock reading at that call; the outputs are kept per call. *)
Fixpoint run_stream (modelName : string) (evs : list (Time * Event))
    (st : StreamState) : list (list Output) * StreamState :=
  match evs with
  | [] => ([], st)
  | (now, ev) :: rest =>
      let '(out, st1) := ConvertClaudeResponseToOpenAI now modelName ev st in
      let '(outs, st2) := run_stream modelName rest st1 in
      (out :: outs, st2)
  end.

(** What the client sees as message text: the [delta.content] of the
    chunks, in order. *)
Definition output_content (o : Output) : string :=
  match o with
  | OutChunk c => match deltaContent c with Some s => s | None => "" end
  | OutError _ _ => ""
  end.

Definition client_text (outs : list (list Output)) : string :=
  fold_right (fun o acc => output_content o ++ acc) "" (concat outs).

(** ** JSON documents, read with gjson and written with sjson

    A request body is kept as the document it denotes.  [JEmpty] is a
    text that is empty or not JSON.  A number is an integer (the bodies
    of interest carry token counts).  An object keeps its members in
    order; gjson returns, and sjson replaces, the first member with a
    given key. *)

#[local] Unset Elimination Schemes.
Inductive json :=
| JEmpty
| JNull
| JBool (b : bool)
| JNum (n : Z)
| JStr (s : string)
| JArr (items : list json)
| JObj (members : list (string * json)).
#[local] Set Elimination Schemes.

Definition quote : string := String (ascii_of_nat 34) EmptyString.

Definition digit_char (d : Z) : ascii := ascii_of_nat (48 + Z.to_nat d).

Fixpoint digits_of (fuel : nat) (n : Z) (acc : string) : string :=
  match fuel with
  | O => acc
  | S k =>
      let acc' := String (digit_char (n mod 10)) acc in
      if n <? 10 then acc' else digits_of k (n / 10) acc'
  end.

(** The decimal text of an integer. *)
Definition string_of_Z (n : Z) : string :=
  if n <? 0 then "-" ++ digits_of (S (Z.to_nat (Z.log2 (- n)))) (- n) ""
  else digits_of (S (Z.to_nat (Z.log2 n))) n "".

(** The text of a value, for [Result.String()] on a value that is not a
    string: gjson gives the value's own text ([Raw]). *)
Fixpoint json_raw (j : json) : string :=
  match j with
  | JEmpty => ""
  | JNull => "null"
  | JBool true => "true"
  | JBool false => "false"
  | JNum n => string_of_Z n
  | JStr s => quote ++ s ++ quote
  | JArr items =>
      "[" ++ (fix go (l : list json) : string :=
                match l with
                | [] => ""
                | [x] => json_raw x
                | x :: r => json_raw x ++ "," ++ go r
                end) items ++ "]"
  | JObj members =>
      "{" ++ (fix go (l : list (string * json)) : string :=
                match l with
                | [] => ""
                | [(k, x)] => quote ++ k ++ quote ++ ":" ++ json_raw x
                | (k, x) :: r =>
                    quote ++ k ++ quote ++ ":" ++ json_raw x ++ "," ++ go r
                end) members ++ "}"
  end.

Fixpoint assoc_get (k : string) (ms : list (string * json)) : option json :=
  match ms with
  | [] => None
  | (k', v) :: r => if String.eqb k k' then Some v else assoc_get k r
  end.

(** [Result.Get(key)] *)
Definition get_key (k : string) (j : json) : option json :=
  match j with
  | JObj ms => assoc_get k ms
  | _ => None
  end.

(** [gjson.Get(json, "k1.k2...")]; [None] is a result that does not exist. *)
Fixpoint gjson_Get (j : json) (path : list string) : option json :=
  match path with
  | [] => Some j
  | k :: rest =>
      match get_key k j with
      | Some v => gjson_Get v rest
      | None => None
      end
  end.

Definition Exists (r : option json) : bool :=
  match r with Some _ => true | None => false end.

Definition gjson_String (r : option json) : string :=
  match r with
  | Some (JStr s) => s
  | Some JNull | None => ""
  | Some j => json_raw j
  end.

Definition wrap64 (n : Z) : Z := (n + 2 ^ 63) mod 2 ^ 64 - 2 ^ 63.

Definition is_digit (c : ascii) : bool := in_range "0" "9" c.

(** gjson's [parseInt]: an optional minus sign and decimal digits. *)
Fixpoint parse_digits (s : string) (n : Z) : option Z :=
  match s with
  | EmptyString => Some n
  | String c r =>
      if is_digit c then
        parse_digits r (wrap64 (n * 10 + (Z.of_nat (nat_of_ascii c) - 48)))
      else None
  end.

Definition parseInt (s : string) : option Z :=
  match s with
  | EmptyString => None
  | String c r =>
      if Ascii.eqb c "-" then
        match r with
        | EmptyString => None
        | _ => option_map (fun n => wrap64 (- n)) (parse_digits r 0)
        end
      else parse_digits s 0
  end.

Definition gjson_Int (r : option json) : Z :=
  match r with
  | Some (JBool true) => 1
  | Some (JNum n) => n
  | Some (JStr s) => match parseInt s with Some n => n | None => 0 end
  | _ => 0
  end.



Fixpoint assoc_set (k : string) (f : option json -> json)
    (ms : list (string * json)) : list (string * json) :=
  match ms with
  | [] => [(k, f None)]
  | (k', v) :: r =>
      if String.eqb k k' then (k', f (Some v)) :: r
      else (k', v) :: assoc_set k f r
  end.

(** [sjson.Set(json, "k1.k2...", value)] with the error dropped, as every
    caller does: a member is replaced where it stands or appended; a
    missing or scalar parent becomes an object; a key set on an array is
    an error, and the result is then the empty text. *)
Fixpoint sjson_Set (path : list string) (value : json) (j : option json) : json :=
  match path with
  | [] => value
  | k :: rest =>
      match j with
      | Some (JObj ms) => JObj (assoc_set k (sjson_Set rest value) ms)
      | Some (JArr _) => JEmpty
      | _ => JObj [(k, sjson_Set rest value None)]
      end
  end.

Fixpoint assoc_del (k : string) (ms : list (string * json)) : list (string * json) :=
  match ms with
  | [] => []
  | (k', v) :: r => if String.eqb k k' then r else (k', v) :: assoc_del k r
  end.

Fixpoint assoc_update (k : string) (f : json -> json)
    (ms : list (string * json)) : list (string * json) :=
  match ms with
  | [] => []
  | (k', v) :: r =>
      if String.eqb k k' then (k', f v) :: r else (k', v) :: assoc_update k f r
  end.

(** [sjson.Delete(json, "k1.k2...")]: a path that is not there leaves the
    document as it is. *)
Fixpoint sjson_Delete (path : list string) (j : json) : json :=
  match path, j with
  | [k], JObj ms => JObj (assoc_del k ms)
  | k :: rest, JObj ms => JObj (assoc_update k (sjson_Delete rest) ms)
  | _, _ => j
  end.

(** [len(body) == 0 || !gjson.ValidBytes(body)] *)
Definition empty_or_invalid (body : json) : bool :=
  match body with JEmpty => true | _ => false end.

(** ** ensureAssistantThinkingBlock (request translator) *)

(** The last message whose role is [assistant]. *)
Fixpoint lastAssistant (messages : list json) : option json :=
  match messages with
  | [] => None
  | m :: rest =>
      match lastAssistant rest with
      | Some a => Some a
      | None =>
          if String.eqb (gjson_String (get_key "role" m)) "assistant"
          then Some m else None
      end
  end.


(** ** internal/thinking: configuration types *)

(** Modelled from the spec: the types [ThinkingMode] and
    [ThinkingConfig] of the thinking package (spec section 3: Mode in
    None, Auto, Budget, Level; Budget, Level, Effort, Speed).
    [ModeBudget] is the zero value of the mode, as the source uses it: a
    config with [Mode = ModeBudget], [Budget = 0] and no level is "no
    config" ([hasThinkingConfig]; the comments of [isSpeedOnly] write
    [Mode=0]). *)
Inductive ThinkingMode := ModeBudget | ModeLevel | ModeNone | ModeAuto.

Definition ThinkingMode_eqb (a b : ThinkingMode) : bool :=
  match a, b with
  | ModeBudget, ModeBudget | ModeLevel, ModeLevel
  | ModeNone, ModeNone | ModeAuto, ModeAuto => true
  | _, _ => false
  end.

Record ThinkingConfig := mkConfig
  { Mode : ThinkingMode;
    Budget : Z;
    Level : string;
    Effort : string;
    Speed : string }.

(** [ThinkingConfig{}] *)
Definition emptyConfig : ThinkingConfig := mkConfig ModeBudget 0 "" "" "".

(** Modelled from the spec: [registry.ThinkingSupport] and
    [registry.ModelInfo], the model-capability record of the registry,
    with the fields the thinking package reads (spec section 3,
    ModelCapability: minBudget, maxBudget, zeroAllowed, dynamicAllowed,
    userDefined; [Thinking = None] is a model that does not support
    thinking, [MaxCompletionTokens] the model's default [max_tokens]). *)
Record ThinkingSupport := mkThinkingSupport
  { Min : Z; Max : Z; ZeroAllowed : bool; DynamicAllowed : bool }.

Record ModelInfo := mkModelInfo
  { ID : string;
    UserDefined : bool;
    Thinking : option ThinkingSupport;
    MaxCompletionTokens : Z }.

(** A nil pointer to a [registry.ModelInfo] is [None]. *)
Definition IsUserDefinedModel (modelInfo : option ModelInfo) : bool :=
  match modelInfo with
  | None => true
  | Some mi => UserDefined mi
  end.

(** ** internal/thinking/provider/claude *)

Module Claude.

Definition isSpeedOnly (config : ThinkingConfig) : bool :=
  negb (is_empty (Speed config)) && is_empty (Effort config)
  && ThinkingMode_eqb (Mode config) ModeBudget && (Budget config =? 0)
  && is_empty (Level config).

Definition isEffortOnly (config : ThinkingConfig) : bool :=
  negb (is_empty (Effort config))
  && ThinkingMode_eqb (Mode config) ModeBudget && (Budget config =? 0)
  && is_empty (Level config).

Definition applySpeed (body : json) (config : ThinkingConfig) : json :=
  if is_empty (Speed config) then body
  else sjson_Set ["speed"] (JStr (Speed config)) (Some body).

Definition applyEffort (body : json) (config : ThinkingConfig) : json :=
  if is_empty (Effort config) then body
  else sjson_Set ["output_config"; "effort"] (JStr (Effort config)) (Some body).

(** The value, and whether it came from the model default. *)
Definition effectiveMaxTokens (body : json) (modelInfo : option ModelInfo)
    : Z * bool :=
  let maxTok := gjson_Get body ["max_tokens"] in
  if Exists maxTok && (gjson_Int maxTok >? 0) then (gjson_Int maxTok, false)
  else
    match modelInfo with
    | Some mi =>
        if MaxCompletionTokens mi >? 0 then (MaxCompletionTokens mi, true)
        else (0, false)
    | None => (0, false)
    end.

Definition normalizeClaudeBudget (body : json) (budgetTokens : Z)
    (modelInfo : option ModelInfo) : json :=
  if budgetTokens <=? 0 then body
  else
    let '(effectiveMax, setDefaultMax) := effectiveMaxTokens body modelInfo in
    let body :=
      if setDefaultMax && (effectiveMax >? 0)
      then sjson_Set ["max_tokens"] (JNum effectiveMax) (Some body)
      else body in
    let adjustedBudget :=
      if (effectiveMax >? 0) && (budgetTokens >=? effectiveMax)
      then effectiveMax - 1 else budgetTokens in
    let minBudget :=
      match modelInfo with
      | Some mi =>
          match Thinking mi with Some t => Min t | None => 0 end
      | None => 0
      end in
    if (minBudget >? 0) && (adjustedBudget >? 0) && (adjustedBudget <? minBudget)
    then body
    else if negb (adjustedBudget =? budgetTokens)
    then sjson_Set ["thinking"; "budget_tokens"] (JNum adjustedBudget) (Some body)
    else body.

Definition applyCompatibleClaude (body : json) (config : ThinkingConfig) : json :=
  let body := if empty_or_invalid body then JObj [] else body in
  if isSpeedOnly config then applySpeed body config
  else if isEffortOnly config then applySpeed (applyEffort body config) config
  else
    match Mode config with
    | ModeLevel => applySpeed body config
    | ModeNone =>
        let result := sjson_Set ["thinking"; "type"] (JStr "disabled") (Some body) in
        let result := sjson_Delete ["thinking"; "budget_tokens"] result in
        applySpeed (applyEffort result config) config
    | ModeAuto =>
        let result := sjson_Set ["thinking"; "type"] (JStr "adaptive") (Some body) in
        let result := sjson_Delete ["thinking"; "budget_tokens"] result in
        applySpeed (applyEffort result config) config
    | ModeBudget =>
        let result := sjson_Set ["thinking"; "type"] (JStr "enabled") (Some body) in
        let result :=
          sjson_Set ["thinking"; "budget_tokens"] (JNum (Budget config))
            (Some result) in
        applySpeed (applyEffort result config) config
    end.

(** The method [Apply] of [Applier]; the error it returns is always nil. *)
Definition Apply (body : json) (config : ThinkingConfig)
    (modelInfo : option ModelInfo) : json :=
  if IsUserDefinedModel modelInfo then applyCompatibleClaude body config
  else
    match modelInfo with
    | None => body
    | Some mi =>
        match Thinking mi with
        | None => body
        | Some support =>
            if isSpeedOnly config then
              applySpeed (if empty_or_invalid body then JObj [] else body) config
            else if isEffortOnly config then
              let body := if empty_or_invalid body then JObj [] else body in
              applySpeed (applyEffort body config) config
            else if ThinkingMode_eqb (Mode config) ModeLevel then body
            else
              let body := if empty_or_invalid body then JObj [] else body in
              if ThinkingMode_eqb (Mode config) ModeNone || (Budget config =? 0) then
                let result :=
                  sjson_Set ["thinking"; "type"] (JStr "disabled") (Some body) in
                let result := sjson_Delete ["thinking"; "budget_tokens"] result in
                applySpeed (applyEffort result config) config
              else if ThinkingMode_eqb (Mode config) ModeAuto
                      && DynamicAllowed support then
                let result :=
                  sjson_Set ["thinking"; "type"] (JStr "adaptive") (Some body) in
                let result := sjson_Delete ["thinking"; "budget_tokens"] result in
                applySpeed (applyEffort result config) config
              else
                let result :=
                  sjson_Set ["thinking"; "type"] (JStr "enabled") (Some body) in
                let result :=
                  if Budget config >? 0 then
                    normalizeClaudeBudget
                      (sjson_Set ["thinking"; "budget_tokens"]
                         (JNum (Budget config)) (Some result))
                      (Budget config) modelInfo
                  else sjson_Delete ["thinking"; "budget_tokens"] result in
                applySpeed (applyEffort result config) config
        end
    end.

End Claude.

(** ** strings.ToLower and strings.EqualFold *)

Definition is_ascii (c : ascii) : bool := (nat_of_ascii c <? 128)%nat.

Definition lower_ascii (c : ascii) : ascii :=
  if in_range "A" "Z" c then ascii_of_nat (nat_of_ascii c + 32) else c.

(** [strings.ToLower].  Two runes outside ASCII have an ASCII lower
    case: U+0130 (bytes C4 B0) becomes [i] and U+212A (bytes E2 84 AA)
    becomes [k].  Every other rune outside ASCII has a lower case
    outside ASCII; its bytes are kept here as they are, which differs
    from Go only in bytes that no comparison below looks at. *)
Fixpoint ToLower (s : string) : string :=
  match s with
  | EmptyString => EmptyString
  | String c r =>
      if is_ascii c then String (lower_ascii c) (ToLower r)
      else
        match r with
        | String d r' =>
            if b1 c 196 && b1 d 176 then String "i" (ToLower r')
            else
              match r' with
              | String e r'' =>
                  if b1 c 226 && b1 d 132 && b1 e 170
                  then String "k" (ToLower r'')
                  else String c (ToLower r)
              | EmptyString => String c (ToLower r)
              end
        | EmptyString => String c EmptyString
        end
  end.

(** [strings.EqualFold(s, t)] for an ASCII [t] (the callers pass the
    literals [fast] and [max]): rune by rune under simple case folding.
    An ASCII rune of [s] matches its own letter in either case; outside
    ASCII only U+017F (bytes C5 BF) folds to [s] and U+212A (bytes E2 84
    AA) to [k]. *)
Fixpoint EqualFold (s t : string) : bool :=
  match t with
  | EmptyString => is_empty s
  | String tc t' =>
      match s with
      | EmptyString => false
      | String sc s' =>
          if is_ascii sc then
            Ascii.eqb (lower_ascii sc) (lower_ascii tc) && EqualFold s' t'
          else
            match s' with
            | String sd s'' =>
                if b1 sc 197 && b1 sd 191 then
                  Ascii.eqb (lower_ascii tc) "s" && EqualFold s'' t'
                else
                  match s'' with
                  | String se s3 =>
                      b1 sc 226 && b1 sd 132 && b1 se 170
                      && Ascii.eqb (lower_ascii tc) "k" && EqualFold s3 t'
                  | EmptyString => false
                  end
            | EmptyString => false
            end
      end
  end.

(** ** internal/thinking: suffix parsing *)

(** Modelled from the spec: [ParseSpecialSuffix], [ParseLevelSuffix] and
    [ParseNumericSuffix] of the thinking package (spec section 4.1,
    token dispatch: special tokens [none] -> Mode=None, [auto] and [-1]
    -> Mode=Auto; level keywords minimal, low, medium, high, xhigh; a
    bare non-negative integer is an explicit budget).  Each returns
    [None] where the Go function returns [ok = false]. *)
Definition ParseSpecialSuffix (rawSuffix : string) : option ThinkingMode :=
  if String.eqb rawSuffix "none" then Some ModeNone
  else if String.eqb rawSuffix "auto" || String.eqb rawSuffix "-1" then Some ModeAuto
  else None.

Definition levelKeywords : list string :=
  ["minimal"; "low"; "medium"; "high"; "xhigh"].

Definition ParseLevelSuffix (rawSuffix : string) : option string :=
  if existsb (String.eqb rawSuffix) levelKeywords then Some rawSuffix else None.

Fixpoint decimal_value (s : string) (n : Z) : Z :=
  match s with
  | EmptyString => n
  | String c r => decimal_value r (n * 10 + (Z.of_nat (nat_of_ascii c) - 48))
  end.

Definition ParseNumericSuffix (rawSuffix : string) : option Z :=
  if negb (is_empty rawSuffix) && str_forall is_digit rawSuffix
  then Some (decimal_value rawSuffix 0) else None.

Definition isSpeedSuffix (rawSuffix : string) : bool := EqualFold rawSuffix "fast".

Definition isEffortOnlySuffix (rawSuffix : string) : bool := EqualFold rawSuffix "max".

Definition isEffortOnlyConfig (config : ThinkingConfig) : bool :=
  negb (is_empty (Effort config))
  && ThinkingMode_eqb (Mode config) ModeBudget && (Budget config =? 0)
  && is_empty (Level config).

Definition isSpeedOnlyConfig (config : ThinkingConfig) : bool :=
  negb (is_empty (Speed config)) && is_empty (Effort config)
  && ThinkingMode_eqb (Mode config) ModeBudget && (Budget config =? 0)
  && is_empty (Level config).

Definition hasThinkingConfig (config : ThinkingConfig) : bool :=
  negb (ThinkingMode_eqb (Mode config) ModeBudget)
  || negb (Budget config =? 0)
  || negb (is_empty (Level config))
  || negb (is_empty (Effort config))
  || negb (is_empty (Speed config)).

(** One turn of the loop of [parseCompoundSuffix]: the part, trimmed and
    lower-cased, updates the configuration built so far. *)
Definition compoundPart (config : ThinkingConfig) (part : string) : ThinkingConfig :=
  let part := ToLower (TrimSpace part) in
  if is_empty part then config
  else
    match ParseSpecialSuffix part with
    | Some ModeNone =>
        mkConfig ModeNone 0 (Level config) (Effort config) (Speed config)
    | Some ModeAuto =>
        mkConfig ModeAuto (-1) (Level config) (Effort config) (Speed config)
    | Some _ => config
    | None =>
        if isSpeedSuffix part then
          mkConfig (Mode config) (Budget config) (Level config) (Effort config) part
        else if isEffortOnlySuffix part then
          mkConfig (Mode config) (Budget config) (Level config) part (Speed config)
        else
          match ParseLevelSuffix part with
          | Some level =>
              mkConfig (Mode config) (Budget config) (Level config) level
                       (Speed config)
          | None =>
              match ParseNumericSuffix part with
              | Some budget =>
                  mkConfig ModeBudget budget (Level config) (Effort config)
                           (Speed config)
              | None => config
              end
          end
    end.

(** [strings.SplitN(rawSuffix, "+", 2)] *)
Definition SplitN2 (s sep : string) : list string :=
  match find_sub sep s with
  | Some (a, b) => [a; b]
  | None => [s]
  end.

Definition parseCompoundSuffix (rawSuffix : string) : ThinkingConfig :=
  match SplitN2 rawSuffix "+" with
  | [a; b] => fold_left compoundPart [a; b] emptyConfig
  | _ => emptyConfig
  end.

(** The [provider] and [model] arguments of the Go function are used for
    logging only. *)
Definition parseSuffixToConfig (rawSuffix : string) : ThinkingConfig :=
  if contains "+" rawSuffix then parseCompoundSuffix rawSuffix
  else
    let special :=
      match ParseSpecialSuffix rawSuffix with
      | Some ModeNone => Some (mkConfig ModeNone 0 "" "" "")
      | Some ModeAuto => Some (mkConfig ModeAuto (-1) "" "" "")
      | _ => None
      end in
    match special with
    | Some config => config
    | None =>
        if isSpeedSuffix rawSuffix then
          mkConfig ModeBudget 0 "" "" (ToLower (TrimSpace rawSuffix))
        else if isEffortOnlySuffix rawSuffix then
          mkConfig ModeBudget 0 "" (ToLower (TrimSpace rawSuffix)) ""
        else
          match ParseLevelSuffix rawSuffix with
          | Some level => mkConfig ModeLevel 0 level "" ""
          | None =>
              match ParseNumericSuffix rawSuffix with
              | Some budget =>
                  if budget =? 0 then mkConfig ModeNone 0 "" "" ""
                  else mkConfig ModeBudget budget "" "" ""
              | None => emptyConfig
              end
          end
    end.

(** ** internal/thinking: reading the configuration of a request body *)

Definition budgetConfig (value : Z) : ThinkingConfig :=
  if value =? 0 then mkConfig ModeNone 0 "" "" ""
  else if value =? -1 then mkConfig ModeAuto (-1) "" "" ""
  else mkConfig ModeBudget value "" "" "".

Definition extractClaudeConfig (body : json) : ThinkingConfig :=
  let thinkingType := gjson_String (gjson_Get body ["thinking"; "type"]) in
  if String.eqb thinkingType "disabled" then mkConfig ModeNone 0 "" "" ""
  else if String.eqb thinkingType "adaptive" then mkConfig ModeAuto (-1) "" "" ""
  else
    let budget := gjson_Get body ["thinking"; "budget_tokens"] in
    if Exists budget then budgetConfig (gjson_Int budget)
    else if String.eqb thinkingType "enabled" then mkConfig ModeAuto (-1) "" "" ""
    else emptyConfig.

Definition orElse (a b : option json) : option json :=
  match a with Some _ => a | None => b end.

Definition extractGeminiConfig (body : json) (provider : string) : ThinkingConfig :=
  let prefix :=
    if String.eqb provider "gemini-cli" || String.eqb provider "antigravity"
    then ["request"; "generationConfig"; "thinkingConfig"]
    else ["generationConfig"; "thinkingConfig"] in
  let level := orElse (gjson_Get body (prefix ++ ["thinkingLevel"]))
                      (gjson_Get body (prefix ++ ["thinking_level"])) in
  if Exists level then
    let value := gjson_String level in
    if String.eqb value "none" then mkConfig ModeNone 0 "" "" ""
    else if String.eqb value "auto" then mkConfig ModeAuto (-1) "" "" ""
    else mkConfig ModeLevel 0 value "" ""
  else
    let budget := orElse (gjson_Get body (prefix ++ ["thinkingBudget"]))
                         (gjson_Get body (prefix ++ ["thinking_budget"])) in
    if Exists budget then budgetConfig (gjson_Int budget) else emptyConfig.

Definition effortConfig (effort : option json) : ThinkingConfig :=
  if Exists effort then
    let value := gjson_String effort in
    if String.eqb value "none" then mkConfig ModeNone 0 "" "" ""
    else mkConfig ModeLevel 0 value "" ""
  else emptyConfig.

Definition extractOpenAIConfig (body : json) : ThinkingConfig :=
  effortConfig (gjson_Get body ["reasoning_effort"]).

Definition extractCodexConfig (body : json) : ThinkingConfig :=
  effortConfig (gjson_Get body ["reasoning"; "effort"]).

(** [Result.Bool()] *)
Definition gjson_Bool (r : option json) : bool :=
  match r with
  | Some (JBool b) => b
  | Some (JNum n) => negb (n =? 0)
  | Some (JStr s) =>
      let l := ToLower s in
      String.eqb l "1" || String.eqb l "t" || String.eqb l "true"
  | _ => false
  end.

Definition switchConfig (enabled : option json) : ThinkingConfig :=
  if gjson_Bool enabled then mkConfig ModeBudget 1 "" "" ""
  else mkConfig ModeNone 0 "" "" "".

Definition extractIFlowConfig (body : json) : ThinkingConfig :=
  let enabled := gjson_Get body ["chat_template_kwargs"; "enable_thinking"] in
  if Exists enabled then switchConfig enabled
  else
    let split := gjson_Get body ["reasoning_split"] in
    if Exists split then switchConfig split else emptyConfig.

Definition extractThinkingConfig (body : json) (provider : string) : ThinkingConfig :=
  if empty_or_invalid body then emptyConfig
  else if String.eqb provider "claude" then extractClaudeConfig body
  else if String.eqb provider "gemini" || String.eqb provider "gemini-cli"
          || String.eqb provider "antigravity"
  then extractGeminiConfig body provider
  else if String.eqb provider "openai" then extractOpenAIConfig body
  else if String.eqb provider "codex" then extractCodexConfig body
  else if String.eqb provider "iflow" then
    let config := extractIFlowConfig body in
    if hasThinkingConfig config then config else extractOpenAIConfig body
  else if String.eqb provider "kimi" then extractOpenAIConfig body
  else emptyConfig.

(** ** internal/thinking: ApplyThinking *)

(** Modelled from the spec: the type [SuffixResult] (spec section 3),
    with the field names of the source ([ModelName] is the base
    model). *)
Record SuffixResult := mkSuffixResult
  { ModelName : string; HasSuffix : bool; RawSuffix : string }.

Section ApplyThinking.

(** The parts of the package and of the registry that [ApplyThinking]
    calls and that are kept abstract: the model-name parser, the
    registry lookup, the validator, the stripping of a body's thinking
    fields, the level-to-budget table with the two provider
    predicates, and the table of registered appliers. *)
Variable ThinkingError : Type.
Variable ParseSuffix : string -> SuffixResult.
Variable LookupModelInfo : string -> string -> option ModelInfo.
Variable ValidateConfig :
  ThinkingConfig -> ModelInfo -> string -> string -> bool ->
  option ThinkingConfig * option ThinkingError.
Variable StripThinkingConfig : json -> string -> json.
Variable isBudgetBasedProvider : string -> bool.
Variable isLevelBasedProvider : string -> bool.
Variable ConvertLevelToBudget : string -> option Z.

(** The interface [ProviderApplier]. *)
Record ProviderApplier := mkApplier
  { Apply : json -> ThinkingConfig -> option ModelInfo ->
            json * option ThinkingError }.

Variable GetProviderApplier : string -> option ProviderApplier.

Definition ClaudeApplier : ProviderApplier :=
  mkApplier (fun body config modelInfo => (Claude.Apply body config modelInfo, None)).

Definition normalizeUserDefinedConfig (config : ThinkingConfig)
    (fromFormat toFormat : string) : ThinkingConfig :=
  if negb (ThinkingMode_eqb (Mode config) ModeLevel) then config
  else if negb (isBudgetBasedProvider toFormat) || negb (isLevelBasedProvider fromFormat)
  then config
  else
    match ConvertLevelToBudget (Level config) with
    | None => config
    | Some budget => mkConfig ModeBudget budget "" (Effort config) (Speed config)
    end.

Definition applyUserDefinedModel (body : json) (modelInfo : option ModelInfo)
    (fromFormat toFormat : string) (suffixResult : SuffixResult)
    : json * option ThinkingError :=
  let config :=
    if HasSuffix suffixResult then parseSuffixToConfig (RawSuffix suffixResult)
    else extractThinkingConfig body toFormat in
  if negb (hasThinkingConfig config) then (body, None)
  else
    match GetProviderApplier toFormat with
    | None => (body, None)
    | Some applier =>
        let config := normalizeUserDefinedConfig config fromFormat toFormat in
        Apply applier body config modelInfo
    end.

Definition ApplyThinking (body : json) (model fromFormat toFormat providerKey : string)
    : json * option ThinkingError :=
  let providerFormat := ToLower (TrimSpace toFormat) in
  let providerKey := ToLower (TrimSpace providerKey) in
  let providerKey := if is_empty providerKey then providerFormat else providerKey in
  let fromFormat := ToLower (TrimSpace fromFormat) in
  let fromFormat := if is_empty fromFormat then providerFormat else fromFormat in
  match GetProviderApplier providerFormat with
  | None => (body, None)
  | Some applier =>
      let suffixResult := ParseSuffix model in
      let baseModel := ModelName suffixResult in
      let modelInfo := LookupModelInfo baseModel providerKey in
      match modelInfo with
      | None =>
          applyUserDefinedModel body modelInfo fromFormat providerFormat suffixResult
      | Some mi =>
          if UserDefined mi then
            applyUserDefinedModel body modelInfo fromFormat providerFormat suffixResult
          else
            match Thinking mi with
            | None =>
                let config := extractThinkingConfig body providerFormat in
                if hasThinkingConfig config
                then (StripThinkingConfig body providerFormat, None)
                else (body, None)
            | Some _ =>
                let config :=
                  if HasSuffix suffixResult
                  then parseSuffixToConfig (RawSuffix suffixResult)
                  else extractThinkingConfig body providerFormat in
                if negb (hasThinkingConfig config) then (body, None)
                else if isSpeedOnlyConfig config then Apply applier body config modelInfo
                else if isEffortOnlyConfig config then Apply applier body config modelInfo
                else
                  match ValidateConfig config mi fromFormat providerFormat
                          (HasSuffix suffixResult) with
                  | (_, Some err) => (body, Some err)
                  | (None, None) => (body, None)
                  | (Some validated, None) =>
                      let validated :=
                        if negb (is_empty (Speed config)) && is_empty (Speed validated)
                        then mkConfig (Mode validated) (Budget validated)
                               (Level validated) (Effort validated) (Speed config)
                        else validated in
                      Apply applier body validated modelInfo
                  end
            end
      end
  end.

End ApplyThinking.

(* ===================================================================== *)
(** * Part I-b: definitions used to state the properties                  *)
(* ===================================================================== *)

(** ** Sample data and times *)

(** A signature of 56 characters (the one of the repository's test). *)
Definition sampleSignature : string :=
  "dGVzdF9zaWduYXR1cmVfZnJvbV9jbGF1ZGVfYXBpXzEyMzQ1Njc4OTA=".

Definition Minute : Duration := 60 * 1000000000.

(** ** Searching in strings *)

(** [c] does not occur in [s]. *)
Definition no_char (c : ascii) (s : string) : bool :=
  str_forall (fun x => negb (Ascii.eqb x c)) s.

(** A search result moved right over the text [a]. *)
Definition shift2 (a : string) (r : option (string * string)) : option (string * string) :=
  match r with Some (b, x) => Some (a ++ b, x) | None => None end.

Definition shift3 (a : string) (r : option (string * string * string))
    : option (string * string * string) :=
  match r with Some (b, g, x) => Some (a ++ b, g, x) | None => None end.

(** A pattern that begins with the literal [p]. *)
Definition begins_with (re : regex) (p : string) : Prop :=
  forall s, has_prefix p s = false -> re s = None.

(** ** Streams of a thinking block and the client's text *)

Definition str_concat (l : list string) : string := fold_right String.append "" l.

Definition thinkingDeltas (index : Z) (ds : list string) : list Event :=
  map (fun d => ContentBlockDelta index (Some (ThinkingDelta (Some d)))) ds.

Definition signatureDeltas (index : Z) (ss : list string) : list Event :=
  map (fun s => ContentBlockDelta index (Some (SignatureDelta (Some s)))) ss.

(** The events of one thinking block: its start, the thinking text in
    fragments [ds], the signature in fragments [ss], its stop. *)
Definition thinkingBlock (index : Z) (ds ss : list string) : list Event :=
  ContentBlockStart index (Some ThinkingBlock)
  :: (thinkingDeltas index ds ++ signatureDeltas index ss
      ++ [ContentBlockStop index])%list.

Definition textDelta (index : Z) (text : string) : Event :=
  ContentBlockDelta index (Some (TextDelta (Some text))).

Definition at_time (now : Time) (evs : list Event) : list (Time * Event) :=
  map (pair now) evs.

(** The closing content of a thinking block. *)
Definition closingContent (thinkingID : string) : string :=
  newline ++ "</think>" ++ newline ++ "```plaintext:thinkId:"
  ++ thinkingID ++ "```" ++ newline.

Definition markerPrefix : string := "```plaintext:thinkId:".

(** What the client holds after a thinking block with text [T]: the
    text [pre] streamed before the block, the block as the response
    translator frames it, the text [post] streamed after it. *)
Definition framed (pre T id post : string) : string :=
  pre ++ ("<think>" ++ newline ++ T ++ closingContent id) ++ post.

(** The stream of a response whose thinking block, at [index], arrives
    in fragments [ds] with its signature in fragments [ss], between the
    text [pre] and the text [post]. *)
Definition blockStream (now : Time) (index : Z) (pre post : string)
    (ds ss : list string) : list (Time * Event) :=
  at_time now ([textDelta (index - 1) pre] ++ thinkingBlock index ds ss
               ++ [textDelta (index + 1) post])%list.

(** Forward translation from a fresh [param], then reverse translation
    of the client's text at time [later]. *)
Definition roundTrip (now later : Time) (index : Z) (pre post : string)
    (ds ss : list string) (param : Params) (cache : gmap string ThinkingEntry)
    : string * list ContentPart :=
  let '(outs, (_, cache')) :=
    run_stream "claude" (blockStream now index pre post ds ss) (param, cache) in
  (client_text outs, fst (extractThinkingFromContent later (client_text outs) cache')).

(** ** The fallback of the request translator *)

Definition ticks : string := "```".
Definition escapedTicks : string := "\`\`\`".

Definition sampleMessage : string :=
  "<think>" ++ newline ++ "abc" ++ newline ++ "</think>" ++ newline
  ++ "```plaintext:thinkId:ab12```" ++ newline ++ "Hello".

(** The three ways of the claim in which an identifier gives no usable
    entry at time [now]. *)
Definition noUsableEntry (now : Time) (id : string)
    (cache : gmap string ThinkingEntry) : Prop :=
  cache !! id = None
  \/ (exists e, cache !! id = Some e /\ ThinkingCacheTTL < now - Timestamp e)
  \/ (exists e, cache !! id = Some e /\ HasValidSignature (Signature e) = false).

(** ** Scenario A *)






(** ** Requests and models *)

Definition roleOf (m : json) : string := gjson_String (get_key "role" m).



Definition budgetPath : list string := ["thinking"; "budget_tokens"].

(** A Claude model with thinking budgets from 1024 to 128000 and a
    default [max_tokens] of 64000. *)
Definition claudeModel : ModelInfo :=
  mkModelInfo "claude-sonnet-4-5" false
    (Some (mkThinkingSupport 1024 128000 false false)) 64000.

Definition enabledThinking (budget : Z) : json :=
  JObj [("type", JStr "enabled"); ("budget_tokens", JNum budget)].

(** ** Compound suffixes *)




(** ** The configuration ApplyThinking works with *)


Section SuffixPriority.

Variable ThinkingError : Type.
Variable ParseSuffix : string -> SuffixResult.
Variable LookupModelInfo : string -> string -> option ModelInfo.
Variable ValidateConfig :
  ThinkingConfig -> ModelInfo -> string -> string -> bool ->
  option ThinkingConfig * option ThinkingError.
Variable StripThinkingConfig : json -> string -> json.
Variable isBudgetBasedProvider : string -> bool.
Variable isLevelBasedProvider : string -> bool.
Variable ConvertLevelToBudget : string -> option Z.
Variable GetProviderApplier : string -> option (ProviderApplier ThinkingError).






End SuffixPriority.


(** Modelled from the spec: [ParseSuffix] of the thinking package, for
    the grammar [<base>(<token>)] of spec section 4.1 (the token is what
    stands between the last opening parenthesis and a closing one that
    ends the name; the [-thinking] aliases of the grammar are left
    out).  It is used to instantiate the abstract parser in examples. *)
Definition parseParenSuffix (model : string) : SuffixResult :=
  match str_rev model with
  | String c r =>
      if Ascii.eqb c ")" then
        match find_sub "(" r with
        | Some (token, base) => mkSuffixResult (str_rev base) true (str_rev token)
        | None => mkSuffixResult model false ""
        end
      else mkSuffixResult model false ""
  | EmptyString => mkSuffixResult model false ""
  end.

(** A registry with one model that supports thinking and one that does
    not. *)
Definition haikuModel : ModelInfo := mkModelInfo "claude-3-haiku" false None 4096.

Definition sampleRegistry (model providerKey : string) : option ModelInfo :=
  if String.eqb model "claude-sonnet-4-5" then Some claudeModel
  else if String.eqb model "claude-3-haiku" then Some haikuModel
  else None.

(** Instances of the abstract parts: a validator that accepts every
    configuration as it is, a stripping that deletes the [thinking]
    object, and a table of appliers with the Claude applier. *)
Definition acceptAll (config : ThinkingConfig) (mi : ModelInfo)
    (fromFormat toFormat : string) (fromSuffix : bool)
    : option ThinkingConfig * option string := (Some config, None).

Definition stripThinkingObject (body : json) (provider : string) : json :=
  sjson_Delete ["thinking"] body.

Definition claudeOnly (provider : string) : option (ProviderApplier string) :=
  if String.eqb provider "claude" then Some (ClaudeApplier string) else None.

Definition sampleApplyThinking (body : json) (model : string) : json * option string :=
  ApplyThinking string parseParenSuffix sampleRegistry acceptAll stripThinkingObject
    (fun _ => false) (fun _ => false) (fun _ => None) claudeOnly
    body model "claude" "claude" "claude".


(* ===================================================================== *)
(** * Part II: properties                                                 *)
(* ===================================================================== *)

(** ** The digest against known values *)

Example sha256_abc :
  EncodeToString (SHA256.Sum256 (bytes_of_string "abc"))
  = "ba7816bf8f01cfea414140de5dae2223b00361a396177a9cb410ff61f20015ad".
Proof. vm_compute. reflexivity. Qed.

Example sha256_empty :
  EncodeToString (SHA256.Sum256 (bytes_of_string ""))
  = "e3b0c44298fc1c149afbf4c8996fb92427ae41e4649b934ca495991b7852b855".
Proof. vm_compute. reflexivity. Qed.

Example sha256_55_bytes :
  EncodeToString (SHA256.Sum256 (repeat 97 55))
  = "9f4390f8d30c2dd92ec9f095b65e2b9ae9b0a925a5258e241c9f1e910f734318".
Proof. vm_compute. reflexivity. Qed.

Example sha256_56_bytes :
  EncodeToString (SHA256.Sum256 (repeat 97 56))
  = "b35439a4ac6f0948b6d6f9e3c6af0f5f590ce20f1bde7090ef7970686ec6738a".
Proof. vm_compute. reflexivity. Qed.

Example sha256_64_bytes :
  EncodeToString (SHA256.Sum256 (repeat 97 64))
  = "ffe054fe7ae0cb6dc65c3af9b61d5209f439851db43d0ba5997337df154668eb".
Proof. vm_compute. reflexivity. Qed.

Example thinkingID_of_scenario_A :
  GenerateThinkingID "Let me think." = "a0e90b3995069d8a3d3391fc04ca18be".
Proof. vm_compute. reflexivity. Qed.

Example sha256_two_blocks :
  EncodeToString (SHA256.Sum256 (bytes_of_string
    "abcdbcdecdefdefgefghfghighijhijkijkljklmklmnlmnomnopnopq"))
  = "248d6a61d20638b8e5c026930c3e6039a33ce45964ff2167f6ecedd419db06c1".
Proof. vm_compute. reflexivity. Qed.

Example extract_ex1 :
  fst (extractThinkingFromContent 0
        ("<think>" ++ newline ++ " abc " ++ newline ++ "</think>" ++ newline ++
         "```plaintext:thinkId:ab12```" ++ newline ++ "Hello ") ∅)
  = [ThinkingPart "abc" None; TextPart "Hello"].
Proof. vm_compute. reflexivity. Qed.

(** ** Strings *)

Lemma is_empty_spec (s : string) : is_empty s = true <-> s = "".
Proof. destruct s; simpl; split; congruence. Qed.

Lemma is_empty_false (s : string) : s <> "" -> is_empty s = false.
Proof. destruct s; simpl; congruence. Qed.

Lemma hexdigit_is_hex (n : Z) : is_hex_lower (hexdigit n) = true.
Proof.
  destruct n as [|p|p]; try reflexivity.
  do 4 (destruct p as [p|p|]; try reflexivity).
Qed.

Lemma EncodeToString_hex (bs : list Z) :
  str_forall is_hex_lower (EncodeToString bs) = true.
Proof.
  induction bs as [|b r IH]; simpl; [reflexivity|].
  rewrite !hexdigit_is_hex, IH. reflexivity.
Qed.

Lemma EncodeToString_length (bs : list Z) :
  String.length (EncodeToString bs) = (2 * List.length bs)%nat.
Proof. induction bs as [|b r IH]; simpl; [reflexivity|]. rewrite IH. lia. Qed.

Lemma Sum256_length (msg : list Z) : List.length (SHA256.Sum256 msg) = 32%nat.
Proof. reflexivity. Qed.

Lemma str_take_forall (p : ascii -> bool) (n : nat) (s : string) :
  str_forall p s = true -> str_forall p (str_take n s) = true.
Proof.
  revert s; induction n as [|n IH]; intros [|c r]; simpl; try reflexivity.
  intros H. apply andb_prop in H as [Hc Hr]. rewrite Hc, IH; auto.
Qed.

Lemma str_take_length (n : nat) (s : string) :
  (n <= String.length s)%nat -> String.length (str_take n s) = n.
Proof.
  revert s; induction n as [|n IH]; intros [|c r]; simpl; intros H;
    try reflexivity; try lia.
  rewrite IH; [reflexivity | lia].
Qed.

(** ** The thinking identifier *)

Lemma GenerateThinkingID_hex (t : string) :
  str_forall is_hex_lower (GenerateThinkingID t) = true.
Proof. apply str_take_forall, EncodeToString_hex. Qed.

Lemma GenerateThinkingID_length (t : string) :
  String.length (GenerateThinkingID t) = 32%nat.
Proof.
  unfold GenerateThinkingID. apply str_take_length.
  rewrite EncodeToString_length, Sum256_length. unfold ThinkingIDLen. lia.
Qed.

Lemma GenerateThinkingID_nonempty (t : string) :
  is_empty (GenerateThinkingID t) = false.
Proof.
  pose proof (GenerateThinkingID_length t) as H.
  destruct (GenerateThinkingID t); [discriminate H | reflexivity].
Qed.

(** ** Time *)

Lemma Sub_within (t u : Time) :
  0 <= t - u <= ThinkingCacheTTL -> (Sub t u >? ThinkingCacheTTL) = false.
Proof.
  intros H. unfold Sub, maxDuration, minDuration.
  unfold ThinkingCacheTTL, Hour in *.
  repeat match goal with |- context [if ?b then _ else _] => destruct b eqn:? end;
    lia.
Qed.

Lemma Sub_expired (t u : Time) :
  ThinkingCacheTTL < t - u -> (Sub t u >? ThinkingCacheTTL) = true.
Proof.
  intros H. unfold Sub, maxDuration, minDuration.
  unfold ThinkingCacheTTL, Hour in *.
  repeat match goal with |- context [if ?b then _ else _] => destruct b eqn:? end;
    lia.
Qed.

(** ** The thinking cache *)

Section ThinkingCache.

Implicit Types (cache : gmap string ThinkingEntry) (now : Time).

Lemma CacheThinking_lookup now id text sig cache :
  id <> "" -> text <> "" ->
  CacheThinking now id text sig cache !! id = Some (mkThinkingEntry text sig now).
Proof.
  intros Hid Ht. unfold CacheThinking.
  rewrite (is_empty_false id), (is_empty_false text) by assumption. simpl.
  apply lookup_insert_eq.
Qed.

Lemma GetCachedThinking_hit now id cache e :
  id <> "" -> cache !! id = Some e ->
  0 <= now - Timestamp e <= ThinkingCacheTTL ->
  GetCachedThinking now id cache = (Some e, cache).
Proof.
  intros Hid He Ht. unfold GetCachedThinking.
  rewrite (is_empty_false id), He, Sub_within by assumption. reflexivity.
Qed.

Lemma GetCachedThinking_expired now id cache e :
  id <> "" -> cache !! id = Some e ->
  ThinkingCacheTTL < now - Timestamp e ->
  GetCachedThinking now id cache = (None, delete id cache).
Proof.
  intros Hid He Ht. unfold GetCachedThinking.
  rewrite (is_empty_false id), He, Sub_expired by assumption. reflexivity.
Qed.

Lemma GetCachedThinking_missing now id cache :
  cache !! id = None -> GetCachedThinking now id cache = (None, cache).
Proof.
  intros He. unfold GetCachedThinking. rewrite He.
  destruct (is_empty id); reflexivity.
Qed.

End ThinkingCache.

Lemma GenerateThinkingID_neq_empty (t : string) : GenerateThinkingID t <> "".
Proof.
  intros H. pose proof (GenerateThinkingID_nonempty t) as E.
  rewrite H in E. discriminate E.
Qed.

(** C3, as stated, fails for the empty text: [CacheThinking] returns
    before storing when the text is empty, so the lookup that follows
    finds nothing although the signature is valid. *)
Lemma C3_empty_text_not_stored :
  HasValidSignature sampleSignature = true
  /\ CacheThinking 0 (GenerateThinkingID "") "" sampleSignature ∅ = ∅
  /\ fst (GetCachedThinking 0 (GenerateThinkingID "")
            (CacheThinking 0 (GenerateThinkingID "") "" sampleSignature ∅))
     = None.
Proof. repeat split. Qed.

(** C3 (amended): for every non-empty text [T] and valid signature [S],
    a [GetCachedThinking] on [GenerateThinkingID T] at any time from the
    [CacheThinking] up to the TTL later returns the entry with text [T]
    and signature [S]; once more than the TTL has passed with no access
    in between it returns nil (and removes the entry). *)
Theorem C3_put_then_get (T S : string) (now later : Time)
    (cache : gmap string ThinkingEntry) :
  T <> "" ->
  HasValidSignature S = true ->
  now <= later ->
  let id := GenerateThinkingID T in
  let cache' := CacheThinking now id T S cache in
  (later - now <= ThinkingCacheTTL ->
     exists e, fst (GetCachedThinking later id cache') = Some e
               /\ ThinkingText e = T /\ Signature e = S
               /\ HasValidSignature (Signature e) = true)
  /\ (ThinkingCacheTTL < later - now ->
     GetCachedThinking later id cache' = (None, delete id cache')).
Proof.
  intros HT HS Hle id cache'.
  assert (Hl : cache' !! id = Some (mkThinkingEntry T S now))
    by (apply CacheThinking_lookup; [apply GenerateThinkingID_neq_empty | exact HT]).
  split; intros Hd.
  - exists (mkThinkingEntry T S now).
    rewrite (GetCachedThinking_hit later id cache' _ (GenerateThinkingID_neq_empty T) Hl)
      by (simpl; lia).
    auto.
  - apply (GetCachedThinking_expired later id cache' _
             (GenerateThinkingID_neq_empty T) Hl).
    simpl; lia.
Qed.

Lemma C3_put_then_get_witness :
  "Let me think." <> "" /\ HasValidSignature sampleSignature = true /\ 0 <= Hour
  /\ exists e,
       fst (GetCachedThinking Hour (GenerateThinkingID "Let me think.")
              (CacheThinking 0 (GenerateThinkingID "Let me think.")
                 "Let me think." sampleSignature ∅)) = Some e
       /\ ThinkingText e = "Let me think." /\ Signature e = sampleSignature
       /\ HasValidSignature (Signature e) = true.
Proof.
  assert (H1 : "Let me think." <> "") by discriminate.
  assert (H2 : HasValidSignature sampleSignature = true) by reflexivity.
  assert (H3 : 0 <= Hour) by (unfold Hour; lia).
  repeat split; try assumption.
  apply (C3_put_then_get "Let me think." sampleSignature 0 Hour ∅ H1 H2 H3).
  unfold ThinkingCacheTTL, Hour; lia.
Defined.

(** ** The signature cache: sliding expiration *)

Lemma GetCachedSignature_refresh (now : Time) (sessionID text : string)
    (signatureCache : gmap string sessionCache) (sc : sessionCache)
    (entry : SignatureEntry) :
  sessionID <> "" -> text <> "" ->
  signatureCache !! sessionID = Some sc ->
  sc !! hashText text = Some entry ->
  0 <= now - seTimestamp entry <= SignatureCacheTTL ->
  GetCachedSignature now sessionID text signatureCache
  = (seSignature entry,
     <[sessionID := <[hashText text := mkSignatureEntry (seSignature entry) now]> sc]>
       signatureCache).
Proof.
  intros Hs Ht Hsc He Hd. unfold GetCachedSignature.
  rewrite (is_empty_false sessionID), (is_empty_false text) by assumption.
  simpl. rewrite Hsc, He.
  change SignatureCacheTTL with ThinkingCacheTTL in *.
  rewrite Sub_within by assumption. reflexivity.
Qed.

(** After a hit at [now] a second lookup hits again whenever it comes
    within the TTL of [now], however old the entry was at the first. *)
Lemma GetCachedSignature_sliding (now later : Time) (sessionID text : string)
    (signatureCache : gmap string sessionCache) (sc : sessionCache)
    (entry : SignatureEntry) :
  sessionID <> "" -> text <> "" ->
  signatureCache !! sessionID = Some sc ->
  sc !! hashText text = Some entry ->
  0 <= now - seTimestamp entry <= SignatureCacheTTL ->
  0 <= later - now <= SignatureCacheTTL ->
  fst (GetCachedSignature later sessionID text
         (snd (GetCachedSignature now sessionID text signatureCache)))
  = seSignature entry.
Proof.
  intros Hs Ht Hsc He Hd Hl.
  rewrite (GetCachedSignature_refresh now _ _ _ sc entry) by assumption.
  simpl.
  rewrite (GetCachedSignature_refresh later sessionID text _
             (<[hashText text := mkSignatureEntry (seSignature entry) now]> sc)
             (mkSignatureEntry (seSignature entry) now) Hs Ht).
  - reflexivity.
  - apply lookup_insert_eq.
  - unfold sessionCache. apply lookup_insert_eq.
  - simpl. exact Hl.
Qed.

(** C4, on the code: a hit of [GetCachedThinking] does not refresh the
    timestamp of the entry.  Stored at time 0 and read (a hit) after 90
    minutes, the entry keeps timestamp 0, and a read 90 minutes after
    that hit, within the TTL of the last access, finds it expired.
    ([GetCachedSignature], next to it in the source, does refresh: see
    [GetCachedSignature_sliding].) *)
Lemma C4_thinking_hit_does_not_refresh :
  let id := GenerateThinkingID "Let me think." in
  let c0 := CacheThinking 0 id "Let me think." sampleSignature ∅ in
  let '(hit, c1) := GetCachedThinking (90 * Minute) id c0 in
  hit = Some (mkThinkingEntry "Let me think." sampleSignature 0)
  /\ c1 !! id = Some (mkThinkingEntry "Let me think." sampleSignature 0)
  /\ 180 * Minute - 90 * Minute <= ThinkingCacheTTL
  /\ fst (GetCachedThinking (180 * Minute) id c1) = None.
Proof. vm_compute. repeat split; congruence. Qed.

(** Expiration in the two caches.  A [GetCachedThinking] that hits a
    stored, non-expired entry returns it and leaves the cache, the
    entry's timestamp included, as it was; the entry therefore expires
    once the TTL has passed since it was stored, whatever accesses came
    in between.  A get on an identifier that was never stored, or past
    the TTL, returns nil.  The timestamp is refreshed on a hit by
    [GetCachedSignature] of the session-keyed signature cache only,
    where an access within the TTL of the previous one hits again. *)
Theorem expiration_of_the_caches (cache : gmap string ThinkingEntry) (id : string)
    (e : ThinkingEntry) (now later : Time) :
  id <> "" ->
  cache !! id = Some e ->
  0 <= now - Timestamp e <= ThinkingCacheTTL ->
  GetCachedThinking now id cache = (Some e, cache)
  /\ (ThinkingCacheTTL < later - Timestamp e ->
      fst (GetCachedThinking later id (snd (GetCachedThinking now id cache))) = None)
  /\ (forall id' t, cache !! id' = None -> fst (GetCachedThinking t id' cache) = None)
  /\ (forall (signatureCache : gmap string sessionCache) sessionID text sc entry t1 t2,
        sessionID <> "" -> text <> "" ->
        signatureCache !! sessionID = Some sc ->
        sc !! hashText text = Some entry ->
        0 <= t1 - seTimestamp entry <= SignatureCacheTTL ->
        0 <= t2 - t1 <= SignatureCacheTTL ->
        let '(sig1, cache1) := GetCachedSignature t1 sessionID text signatureCache in
        sig1 = seSignature entry
        /\ (exists sc1, cache1 !! sessionID = Some sc1
              /\ sc1 !! hashText text = Some (mkSignatureEntry (seSignature entry) t1))
        /\ fst (GetCachedSignature t2 sessionID text cache1) = seSignature entry).
Proof.
  intros Hid He Ht.
  rewrite (GetCachedThinking_hit now id cache e Hid He Ht).
  split; [reflexivity|]. split; [|split].
  - intros Hexp. simpl.
    rewrite (GetCachedThinking_expired later id cache e Hid He Hexp). reflexivity.
  - intros id' t Hnone. rewrite GetCachedThinking_missing by assumption. reflexivity.
  - intros signatureCache sessionID text sc entry t1 t2 Hs Htx Hsc Hen H1 H2.
    pose proof (GetCachedSignature_sliding t1 t2 sessionID text signatureCache sc entry
                  Hs Htx Hsc Hen H1 H2) as Hslide.
    rewrite (GetCachedSignature_refresh t1 _ _ _ sc entry Hs Htx Hsc Hen H1) in *.
    split; [reflexivity|]. split; [|exact Hslide].
    eexists. split; apply lookup_insert_eq.
Qed.

Lemma expiration_of_the_caches_example :
  let id := GenerateThinkingID "Let me think." in
  let e := mkThinkingEntry "Let me think." sampleSignature 0 in
  let cache : gmap string ThinkingEntry := {[ id := e ]} in
  GetCachedThinking (90 * Minute) id cache = (Some e, cache)
  /\ fst (GetCachedThinking (180 * Minute) id
            (snd (GetCachedThinking (90 * Minute) id cache))) = None.
Proof.
  intros id e cache.
  assert (Hid : id <> "") by apply GenerateThinkingID_neq_empty.
  assert (He : cache !! id = Some e) by apply lookup_singleton_eq.
  assert (Ht : 0 <= 90 * Minute - Timestamp e <= ThinkingCacheTTL)
    by (simpl; unfold ThinkingCacheTTL, Hour, Minute; lia).
  destruct (expiration_of_the_caches cache id e (90 * Minute) (180 * Minute) Hid He Ht)
    as (H1 & H2 & _).
  split; [exact H1|]. apply H2.
  simpl; unfold ThinkingCacheTTL, Hour, Minute; lia.
Defined.

(** ** Searching in concatenations *)

Lemma append_nil (b : string) : "" ++ b = b.
Proof. reflexivity. Qed.

Lemma append_cons (c : ascii) (a b : string) : String c a ++ b = String c (a ++ b).
Proof. reflexivity. Qed.

Ltac str_simpl := rewrite ?append_cons, ?append_nil; simpl.

Lemma str_forall_app (p : ascii -> bool) (a b : string) :
  str_forall p (a ++ b) = str_forall p a && str_forall p b.
Proof.
  induction a as [|c a IH]; str_simpl; [reflexivity|].
  rewrite IH. apply andb_assoc.
Qed.

Lemma str_forall_impl (p q : ascii -> bool) (s : string) :
  (forall c, p c = true -> q c = true) ->
  str_forall p s = true -> str_forall q s = true.
Proof.
  intros Hpq. induction s as [|c s IH]; simpl; [reflexivity|].
  intros H. apply andb_prop in H as [H1 H2].
  rewrite (Hpq _ H1), (IH H2). reflexivity.
Qed.

Lemma app_assoc_str (a b c : string) : (a ++ b) ++ c = a ++ (b ++ c).
Proof. induction a as [|x a IH]; str_simpl; [reflexivity|]. now rewrite IH. Qed.

Lemma app_empty_r (a : string) : a ++ "" = a.
Proof. induction a as [|x a IH]; str_simpl; [reflexivity|]. now rewrite IH. Qed.

Lemma has_prefix_app (p s : string) : has_prefix p (p ++ s) = true.
Proof.
  induction p as [|c p IH]; str_simpl; [reflexivity|].
  rewrite Ascii.eqb_refl. exact IH.
Qed.

Lemma str_drop_app (p s : string) : str_drop (String.length p) (p ++ s) = s.
Proof. induction p as [|c p IH]; str_simpl; [destruct s; reflexivity | exact IH]. Qed.

(** A prefix match of [p] that reaches over a character foreign to [p]
    does not exist: it lies within what precedes that character. *)
Lemma has_prefix_before_char (p a : string) (c : ascii) (r : string) :
  no_char c p = true ->
  has_prefix p (a ++ String c r) = true -> has_prefix p a = true.
Proof.
  revert a. induction p as [|x p IH]; intros a Hn H; [reflexivity|].
  simpl in Hn. apply andb_prop in Hn as [Hx Hp].
  destruct a as [|y a]; rewrite ?append_cons, ?append_nil in H; simpl in *.
  - apply andb_prop in H as [H _]. rewrite H in Hx. discriminate Hx.
  - apply andb_prop in H as [H1 H2]. rewrite H1. simpl. apply IH; assumption.
Qed.

(** The same when only the tail of [p] is free of the character, for a
    match that starts before it. *)
Lemma has_prefix_before_char_tail (x : ascii) (p a : string) (y c : ascii) (r : string) :
  no_char c p = true ->
  has_prefix (String x p) (String y a ++ String c r) = true ->
  has_prefix (String x p) (String y a) = true.
Proof.
  rewrite append_cons. simpl. intros Hn H. apply andb_prop in H as [H1 H2].
  rewrite H1. simpl. eapply has_prefix_before_char; eassumption.
Qed.

Lemma shift2_cons c a r : shift2 (String c a) r = shift2 (String c "") (shift2 a r).
Proof. destruct r as [[b x]|]; reflexivity. Qed.

Lemma shift3_cons c a r : shift3 (String c a) r = shift3 (String c "") (shift3 a r).
Proof. destruct r as [[[b g] x]|]; reflexivity. Qed.

Lemma find_sub_cons_miss (p : string) (c : ascii) (r : string) :
  has_prefix p (String c r) = false ->
  find_sub p (String c r) = shift2 (String c "") (find_sub p r).
Proof.
  intros H. cbn [find_sub]. rewrite H.
  destruct (find_sub p r) as [[b x]|]; reflexivity.
Qed.

Lemma contains_cons (p : string) (c : ascii) (r : string) :
  contains p (String c r) = has_prefix p (String c r) || contains p r.
Proof. reflexivity. Qed.

(** Text in which [p] does not occur, followed by a character that the
    tail of [p] does not have, is skipped by the search for [p]. *)
Lemma find_sub_skip (x : ascii) (p a : string) (c : ascii) (r : string) :
  no_char c p = true ->
  contains (String x p) a = false ->
  find_sub (String x p) (a ++ String c r) = shift2 a (find_sub (String x p) (String c r)).
Proof.
  intros Hn. induction a as [|y a IH]; intros Hc.
  - rewrite append_nil. destruct (find_sub _ _) as [[b z]|]; reflexivity.
  - rewrite contains_cons in Hc. apply orb_false_elim in Hc as [H1 H2].
    change (String y a ++ String c r) with (String y (a ++ String c r)).
    rewrite find_sub_cons_miss.
    + rewrite (IH H2). symmetry. apply shift2_cons.
    + destruct (has_prefix (String x p) (String y (a ++ String c r))) eqn:E;
        [|reflexivity].
      change (String y (a ++ String c r)) with (String y a ++ String c r) in E.
      apply has_prefix_before_char_tail in E; [congruence | exact Hn].
Qed.

Lemma lazy_between_begins (open close : string) :
  begins_with (lazy_between open close) open.
Proof. intros s H. unfold lazy_between. rewrite H. reflexivity. Qed.

Lemma hex_between_begins (open close : string) :
  begins_with (hex_between open close) open.
Proof. intros s H. unfold hex_between. rewrite H. reflexivity. Qed.

Lemma regex_find_cons_miss (re : regex) (c : ascii) (r : string) :
  re (String c r) = None ->
  regex_find re (String c r) = shift3 (String c "") (regex_find re r).
Proof.
  intros H. cbn [regex_find]. rewrite H.
  destruct (regex_find re r) as [[[b g] x]|]; reflexivity.
Qed.

Lemma regex_find_hit (re : regex) (s g a : string) :
  re s = Some (g, a) -> regex_find re s = Some ("", g, a).
Proof. intros H. destruct s; cbn [regex_find]; rewrite H; reflexivity. Qed.

Lemma regex_find_skip (re : regex) (x : ascii) (p a : string) (c : ascii) (r : string) :
  begins_with re (String x p) ->
  no_char c p = true ->
  contains (String x p) a = false ->
  regex_find re (a ++ String c r) = shift3 a (regex_find re (String c r)).
Proof.
  intros Hre Hn. induction a as [|y a IH]; intros Hc.
  - rewrite append_nil. destruct (regex_find _ _) as [[[b g] z]|]; reflexivity.
  - rewrite contains_cons in Hc. apply orb_false_elim in Hc as [H1 H2].
    change (String y a ++ String c r) with (String y (a ++ String c r)).
    rewrite regex_find_cons_miss.
    + rewrite (IH H2). symmetry. apply shift3_cons.
    + apply Hre.
      destruct (has_prefix (String x p) (String y (a ++ String c r))) eqn:E;
        [|reflexivity].
      change (String y (a ++ String c r)) with (String y a ++ String c r) in E.
      apply has_prefix_before_char_tail in E; [congruence | exact Hn].
Qed.

Lemma regex_find_none (re : regex) (p s : string) :
  begins_with re p -> contains p s = false -> regex_find re s = None.
Proof.
  intros Hre. induction s as [|c s IH]; intros Hc.
  - simpl in *. rewrite orb_false_r in Hc. now rewrite (Hre _ Hc).
  - rewrite contains_cons in Hc. apply orb_false_elim in Hc as [H1 H2].
    rewrite regex_find_cons_miss by (apply Hre; exact H1).
    rewrite (IH H2). reflexivity.
Qed.

Lemma remove_matches_none (re : regex) (n : nat) (s : string) :
  regex_find re s = None -> remove_matches n re s = s.
Proof. intros H. destruct n; simpl; [|rewrite H]; reflexivity. Qed.

Lemma ReplaceAllString_none (re : regex) (s : string) :
  regex_find re s = None -> ReplaceAllString re s = s.
Proof. apply remove_matches_none. Qed.

Lemma ReplaceAllString_once (re : regex) (s b g a : string) :
  s <> "" ->
  regex_find re s = Some (b, g, a) -> regex_find re a = None ->
  ReplaceAllString re s = b ++ a.
Proof.
  intros Hs H1 H2. unfold ReplaceAllString.
  destruct s as [|c s]; [congruence|].
  cbn [String.length remove_matches]. rewrite H1.
  now rewrite remove_matches_none.
Qed.

(** Where the first character of [p] does not occur, [p] does not
    start. *)
Lemma contains_app_no_first (x : ascii) (p a b : string) :
  no_char x a = true ->
  contains (String x p) (a ++ b) = contains (String x p) b.
Proof.
  induction a as [|y a IH]; intros Hn; [reflexivity|].
  simpl in Hn. apply andb_prop in Hn as [Hy Ha].
  change (String y a ++ b) with (String y (a ++ b)).
  rewrite contains_cons, (IH Ha).
  cbn [has_prefix].
  destruct (Ascii.eqb x y) eqn:E; [|reflexivity].
  apply Ascii.eqb_eq in E. subst y. rewrite Ascii.eqb_refl in Hy. discriminate Hy.
Qed.

Lemma span_all (p : ascii -> bool) (h : string) (c : ascii) (r : string) :
  str_forall p h = true -> p c = false ->
  span p (h ++ String c r) = (h, String c r).
Proof.
  intros Hh Hc. induction h as [|y h IH]; str_simpl.
  - rewrite Hc. reflexivity.
  - simpl in Hh. apply andb_prop in Hh as [Hy Hh].
    rewrite Hy, (IH Hh). reflexivity.
Qed.

Lemma hex_between_match (open : string) (c : ascii) (close h r : string) :
  str_forall is_hex_lower h = true -> h <> "" -> is_hex_lower c = false ->
  hex_between open (String c close) (open ++ h ++ String c close ++ r) = Some (h, r).
Proof.
  intros Hh Hne Hc. unfold hex_between.
  rewrite has_prefix_app, str_drop_app.
  change (String c close ++ r) with (String c (close ++ r)).
  rewrite span_all by assumption.
  rewrite (is_empty_false h Hne).
  change (String c (close ++ r)) with (String c close ++ r).
  rewrite has_prefix_app, str_drop_app. reflexivity.
Qed.

(** ** The response translator on a thinking block *)

Lemma run_stream_app modelName evs1 evs2 st :
  run_stream modelName (evs1 ++ evs2) st
  = let '(o1, st1) := run_stream modelName evs1 st in
    let '(o2, st2) := run_stream modelName evs2 st1 in
    ((o1 ++ o2)%list, st2).
Proof.
  revert st. induction evs1 as [|[now ev] evs1 IH]; intros st; simpl.
  - destruct (run_stream modelName evs2 st); reflexivity.
  - destruct (ConvertClaudeResponseToOpenAI now modelName ev st) as [out st1].
    rewrite IH.
    destruct (run_stream modelName evs1 st1) as [o1 st2].
    destruct (run_stream modelName evs2 st2) as [o2 st3]. reflexivity.
Qed.

Lemma client_text_app (o1 o2 : list (list Output)) :
  client_text (o1 ++ o2)%list = client_text o1 ++ client_text o2.
Proof.
  unfold client_text. rewrite concat_app.
  induction (concat o1) as [|o l IH]; simpl; [reflexivity|].
  rewrite IH. symmetry. apply app_assoc_str.
Qed.

Section ThinkingBlockRun.

Variables (modelName : string) (now : Time) (index : Z).
Variables (created : Z) (rid fin : string).
Variable tools : option (gmap Z ToolCallAccumulator).

Local Abbreviation P accs := (mkParams created rid fin tools accs).

Lemma run_thinkingDeltas (ds : list string) (m : gmap Z ThinkingAccumulator)
    (t s : string) (cache : gmap string ThinkingEntry) :
  exists outs,
    run_stream modelName (at_time now (thinkingDeltas index ds))
      (P (Some (<[index := mkThinkingAccumulator t s]> m)), cache)
    = (outs,
       (P (Some (<[index := mkThinkingAccumulator (t ++ str_concat ds) s]> m)),
        cache))
    /\ client_text outs = str_concat ds.
Proof.
  revert t. induction ds as [|d ds IH]; intros t.
  - exists []. simpl. rewrite app_empty_r. split; reflexivity.
  - destruct (IH (t ++ d)) as (outs & Hrun & Htxt).
    rewrite app_assoc_str in Hrun.
    eexists. cbn [thinkingDeltas at_time map run_stream].
    cbn [ConvertClaudeResponseToOpenAI ThinkingAccumulatorMap].
    rewrite lookup_insert_eq. cbn [taThinking taSignature].
    rewrite insert_insert_eq.
    fold (thinkingDeltas index ds). fold (at_time now (thinkingDeltas index ds)).
    cbn [CreatedAt ResponseID FinishReason ToolCallsAccumulator].
    rewrite Hrun. split; [reflexivity|].
    unfold client_text in *.
    cbn [concat app fold_right output_content deltaContent setContent str_concat].
    rewrite Htxt. reflexivity.
Qed.

Lemma run_signatureDeltas (ss : list string) (m : gmap Z ThinkingAccumulator)
    (t s : string) (cache : gmap string ThinkingEntry) :
  exists outs,
    run_stream modelName (at_time now (signatureDeltas index ss))
      (P (Some (<[index := mkThinkingAccumulator t s]> m)), cache)
    = (outs,
       (P (Some (<[index := mkThinkingAccumulator t (s ++ str_concat ss)]> m)),
        cache))
    /\ client_text outs = "".
Proof.
  revert s. induction ss as [|d ss IH]; intros s.
  - exists []. simpl. rewrite app_empty_r. split; reflexivity.
  - destruct (IH (s ++ d)) as (outs & Hrun & Htxt).
    rewrite app_assoc_str in Hrun.
    eexists. cbn [signatureDeltas at_time map run_stream].
    cbn [ConvertClaudeResponseToOpenAI ThinkingAccumulatorMap].
    rewrite lookup_insert_eq. cbn [taThinking taSignature].
    rewrite insert_insert_eq.
    fold (signatureDeltas index ss). fold (at_time now (signatureDeltas index ss)).
    cbn [CreatedAt ResponseID FinishReason ToolCallsAccumulator].
    rewrite Hrun. split; [reflexivity|].
    unfold client_text in *. cbn [concat app fold_right]. exact Htxt.
Qed.

(** A thinking block started where no tool call is being accumulated:
    the client sees the opening tag, the thinking text, and the closing
    content with the identifier of the text; the text and the
    signature are cached under that identifier when the text is not
    empty. *)
Lemma run_thinkingBlock (ds ss : list string)
    (accs : option (gmap Z ThinkingAccumulator))
    (cache : gmap string ThinkingEntry) :
  accOrEmpty tools !! index = None ->
  let T := str_concat ds in
  let S := str_concat ss in
  exists outs param',
    run_stream modelName (at_time now (thinkingBlock index ds ss)) (P accs, cache)
    = (outs,
       (param',
        if is_empty T then cache
        else CacheThinking now (GenerateThinkingID T) T S cache))
    /\ ToolCallsAccumulator param' = tools
    /\ client_text outs
       = "<think>" ++ newline ++ T ++ closingContent (GenerateThinkingID T).
Proof.
  intros Htools T S.
  unfold thinkingBlock, at_time. cbn [map run_stream].
  rewrite !map_app. fold (at_time now (thinkingDeltas index ds)).
  fold (at_time now (signatureDeltas index ss)).
  cbn [ConvertClaudeResponseToOpenAI ThinkingAccumulatorMap CreatedAt
       ResponseID FinishReason ToolCallsAccumulator].
  destruct (run_thinkingDeltas ds (accOrEmpty accs) "" "" cache) as (o1 & H1 & T1).
  destruct (run_signatureDeltas ss (accOrEmpty accs) (str_concat ds) "" cache)
    as (o2 & H2 & T2).
  rewrite append_nil in H1, H2.
  rewrite run_stream_app, H1, run_stream_app, H2.
  cbn [map run_stream ConvertClaudeResponseToOpenAI ThinkingAccumulatorMap
       CreatedAt ResponseID FinishReason ToolCallsAccumulator].
  rewrite Htools. cbn [accOrEmpty]. rewrite lookup_insert_eq.
  cbn [taThinking taSignature].
  eexists _, _. split; [reflexivity|]. split; [reflexivity|].
  change (?a :: o1 ++ o2 ++ ?b)%list with ([a] ++ o1 ++ o2 ++ b)%list.
  rewrite !client_text_app, T1, T2. reflexivity.
Qed.

End ThinkingBlockRun.

(** ** The request translator on the text of a thinking block *)

Lemma is_hex_lower_not (c : ascii) :
  is_hex_lower c = true ->
  negb (Ascii.eqb c "<") = true /\ negb (Ascii.eqb c "`") = true.
Proof.
  intros H. split; apply negb_true_iff, Ascii.eqb_neq; intros ->; discriminate H.
Qed.

Section Framed.

Variables pre T id post : string.
Hypothesis id_hex : str_forall is_hex_lower id = true.
Hypothesis id_nonempty : id <> "".
Hypothesis pre_no_marker : contains markerPrefix pre = false.
Hypothesis T_no_marker : contains markerPrefix T = false.
Hypothesis post_no_marker : contains markerPrefix post = false.

Lemma thinkId_head (r : string) :
  thinkIdRegex (markerPrefix ++ id ++ fence ++ r) = Some (id, r).
Proof.
  unfold thinkIdRegex, fence.
  apply (hex_between_match markerPrefix "`" "``" id r); auto.
Qed.

Lemma framed_find_thinkId :
  regex_find thinkIdRegex (framed pre T id post)
  = Some (pre ++ "<think>" ++ newline ++ T ++ newline ++ "</think>" ++ newline,
          id, newline ++ post).
Proof.
  unfold framed, closingContent.
  pose proof (hex_between_begins markerPrefix fence) as Hb.
  fold thinkIdRegex in Hb.
  (* skip [pre], up to the opening tag *)
  replace (pre ++ ("<think>" ++ newline ++ T ++ newline ++ "</think>" ++ newline
                   ++ "```plaintext:thinkId:" ++ id ++ "```" ++ newline) ++ post)
    with (pre ++ String "<" (("think>" ++ newline ++ T) ++ String "010"
            ("</think>" ++ String "010" (markerPrefix ++ id ++ fence ++ newline ++ post))))
    by (rewrite !app_assoc_str; reflexivity).
  rewrite (regex_find_skip thinkIdRegex "`" _ pre "<" _ Hb eq_refl pre_no_marker).
  (* skip the opening tag and the thinking text *)
  change (String "<" (("think>" ++ newline ++ T) ++ ?r))
    with (("<think>" ++ newline ++ T) ++ r).
  rewrite (regex_find_skip thinkIdRegex "`" _ ("<think>" ++ newline ++ T) "010" _
             Hb eq_refl)
    by (exact T_no_marker).
  (* skip the closing tag *)
  change (String "010" ("</think>" ++ ?r)) with ((newline ++ "</think>") ++ r).
  rewrite (regex_find_skip thinkIdRegex "`" _ (newline ++ "</think>") "010" _
             Hb eq_refl eq_refl).
  rewrite regex_find_cons_miss by reflexivity.
  rewrite (regex_find_hit _ _ id (newline ++ post)) by apply thinkId_head.
  cbn [shift3]. rewrite !app_assoc_str, !app_empty_r. reflexivity.
Qed.

Hypothesis pre_no_open : contains "<think>" pre = false.
Hypothesis T_no_close : contains "</think>" T = false.
Hypothesis post_no_open : contains "<think>" post = false.

Lemma framed_nonempty : framed pre T id post <> "".
Proof. unfold framed. destruct pre; discriminate. Qed.

Lemma thinkTag_head (r : string) :
  thinkTagRegex ("<think>" ++ newline ++ T ++ newline ++ "</think>" ++ r)
  = Some (newline ++ T ++ newline, r).
Proof.
  unfold thinkTagRegex, lazy_between.
  change (has_prefix "<think>" ("<think>" ++ ?x)) with true.
  cbn iota.
  change (str_drop (String.length "<think>") ("<think>" ++ ?x)) with x.
  replace (newline ++ T ++ newline ++ "</think>" ++ r)
    with ((newline ++ T) ++ String "010" ("</think>" ++ r))
    by (rewrite !app_assoc_str; reflexivity).
  rewrite (find_sub_skip "<" "/think>" (newline ++ T) "010" _ eq_refl)
    by exact T_no_close.
  rewrite find_sub_cons_miss by reflexivity.
  change (find_sub "</think>" ("</think>" ++ r)) with (Some ("", r)).
  cbn [shift2]. rewrite !app_assoc_str. reflexivity.
Qed.

Lemma frame_no_open :
  contains "<think>" (newline ++ markerPrefix ++ id ++ fence ++ newline ++ post)
  = false.
Proof.
  replace (newline ++ markerPrefix ++ id ++ fence ++ newline ++ post)
    with ((newline ++ markerPrefix ++ id ++ fence ++ newline) ++ post)
    by (rewrite !app_assoc_str; reflexivity).
  rewrite contains_app_no_first; [exact post_no_open|].
  unfold no_char.
  change (newline ++ markerPrefix ++ id ++ fence ++ newline)
    with ((newline ++ markerPrefix) ++ id ++ (fence ++ newline)).
  rewrite !str_forall_app.
  rewrite (str_forall_impl is_hex_lower _ id (fun c H => proj1 (is_hex_lower_not c H)) id_hex).
  reflexivity.
Qed.

Lemma framed_remove_thinkTag :
  ReplaceAllString thinkTagRegex (framed pre T id post)
  = pre ++ newline ++ markerPrefix ++ id ++ fence ++ newline ++ post.
Proof.
  pose proof (lazy_between_begins "<think>" "</think>") as Hb.
  fold thinkTagRegex in Hb.
  apply (ReplaceAllString_once _ _ _ (newline ++ T ++ newline)).
  - apply framed_nonempty.
  - unfold framed, closingContent.
    replace (pre ++ ("<think>" ++ newline ++ T ++ newline ++ "</think>" ++ newline
                     ++ "```plaintext:thinkId:" ++ id ++ "```" ++ newline) ++ post)
      with (pre ++ String "<" ("think>" ++ newline ++ T ++ newline ++ "</think>"
              ++ (newline ++ markerPrefix ++ id ++ fence ++ newline ++ post)))
      by (rewrite !app_assoc_str; reflexivity).
    rewrite (regex_find_skip thinkTagRegex "<" _ pre "<" _ Hb eq_refl pre_no_open).
    rewrite (regex_find_hit _ _ (newline ++ T ++ newline)
               (newline ++ markerPrefix ++ id ++ fence ++ newline ++ post))
      by apply thinkTag_head.
    cbn [shift3]. rewrite app_empty_r. reflexivity.
  - apply (regex_find_none _ "<think>" _ Hb), frame_no_open.
Qed.

Lemma framed_remove_thinkId :
  ReplaceAllString thinkIdRegex
    (pre ++ newline ++ markerPrefix ++ id ++ fence ++ newline ++ post)
  = pre ++ newline ++ newline ++ post.
Proof.
  pose proof (hex_between_begins markerPrefix fence) as Hb.
  fold thinkIdRegex in Hb.
  replace (pre ++ newline ++ newline ++ post)
    with ((pre ++ newline) ++ newline ++ post)
    by (rewrite !app_assoc_str; reflexivity).
  apply (ReplaceAllString_once _ _ _ id).
  - destruct pre; discriminate.
  - change (pre ++ newline ++ ?r) with (pre ++ String "010" r).
    rewrite (regex_find_skip thinkIdRegex "`" _ pre "010" _ Hb eq_refl pre_no_marker).
    rewrite regex_find_cons_miss by reflexivity.
    rewrite (regex_find_hit _ _ id (newline ++ post)) by apply thinkId_head.
    cbn [shift3]. rewrite app_empty_r. reflexivity.
  - apply (regex_find_none _ markerPrefix _ Hb). exact post_no_marker.
Qed.

End Framed.

(** The two ways of [extractThinkingFromContent] through a message whose
    first [thinkId] marker carries [id]. *)
Lemma extract_restored (now : Time) (text id : string)
    (cache : gmap string ThinkingEntry) (e : ThinkingEntry) :
  FindStringSubmatch thinkIdRegex text = Some id ->
  fst (GetCachedThinking now id cache) = Some e ->
  HasValidSignature (Signature e) = true ->
  fst (extractThinkingFromContent now text cache)
  = ThinkingPart (ThinkingText e) (Some (Signature e))
    :: textPart (TrimSpace (ReplaceAllString thinkIdRegex
                              (ReplaceAllString thinkTagRegex text))).
Proof.
  intros Hid Hget Hvalid. unfold extractThinkingFromContent.
  rewrite Hid. destruct (GetCachedThinking now id cache) as [entry cache1].
  simpl in Hget. subst entry. rewrite Hvalid. reflexivity.
Qed.

Lemma extract_fallback (now : Time) (text id body : string)
    (cache : gmap string ThinkingEntry) :
  FindStringSubmatch thinkIdRegex text = Some id ->
  match fst (GetCachedThinking now id cache) with
  | Some e => HasValidSignature (Signature e) = false
  | None => True
  end ->
  FindStringSubmatch thinkTagRegex text = Some body ->
  fst (extractThinkingFromContent now text cache)
  = ThinkingPart (TrimSpace (ReplaceAll body "\`\`\`" "```")) None
    :: textPart (TrimSpace (ReplaceAllString thinkIdRegex
                              (ReplaceAllString thinkTagRegex text))).
Proof.
  intros Hid Hget Htag. unfold extractThinkingFromContent.
  rewrite Hid. destruct (GetCachedThinking now id cache) as [entry cache1].
  simpl in Hget. rewrite Htag.
  destruct entry as [e|]; [rewrite Hget|]; reflexivity.
Qed.

Lemma FindStringSubmatch_of_find (re : regex) (s b g a : string) :
  regex_find re s = Some (b, g, a) -> FindStringSubmatch re s = Some g.
Proof. intros H. unfold FindStringSubmatch. rewrite H. reflexivity. Qed.

Lemma TrimSpace_newlines (pre post : string) :
  pre = "" -> TrimSpace (pre ++ newline ++ newline ++ post) = TrimSpace post.
Proof. intros ->. reflexivity. Qed.

(** ** C1: the round trip of a thinking block *)

(** C1, as stated, fails.  A block whose text is empty is not cached
    (the translator caches only a non-empty text), so its valid
    signature does not come back: the item is rebuilt without one.  A
    thinking text that itself holds a marker is looked up under that
    marker's identifier and comes back unsigned too.  And the
    surrounding text does not come back as it was: it is trimmed of
    white space; a tag pair in it is removed with what it encloses; and
    a thinking text that contains the closing tag leaves its rest, and
    the closing tag of the frame, in the text item. *)
Lemma C1_round_trip_fails :
  HasValidSignature sampleSignature = true
  /\ snd (roundTrip 0 1 0 "" "" [] [sampleSignature] initParams ∅)
     = [ThinkingPart "" None]
  /\ snd (roundTrip 0 1 0 "" "Hello" ["see ```plaintext:thinkId:ab```"]
            [sampleSignature] initParams ∅)
     = [ThinkingPart "see ```plaintext:thinkId:ab```" None; TextPart "Hello"]
  /\ snd (roundTrip 0 1 0 "" "  Hello  " ["abc"] [sampleSignature] initParams ∅)
     = [ThinkingPart "abc" (Some sampleSignature); TextPart "Hello"]
  /\ snd (roundTrip 0 1 0 "" "a <think>b</think> c" ["abc"] [sampleSignature]
            initParams ∅)
     = [ThinkingPart "abc" (Some sampleSignature); TextPart "a  c"]
  /\ snd (roundTrip 0 1 0 "" "Hello" ["a</think>b"] [sampleSignature] initParams ∅)
     = [ThinkingPart "a</think>b" (Some sampleSignature);
        TextPart ("b" ++ newline ++ "</think>" ++ newline ++ newline ++ "Hello")].
Proof. vm_compute. repeat split. Qed.

(** C1 (amended): for every non-empty thinking text [T] and valid
    signature [S], where neither [T] nor the surrounding text contains
    the marker prefix, [T] does not contain the closing tag and the
    surrounding text does not contain the opening tag, forward
    translation followed, within the TTL, by reverse translation of the
    client's text gives a thinking item with text exactly [T] and
    signature exactly [S], followed by one text item: the surrounding
    text without the frame of the block (two line ends stay in its
    place), trimmed of leading and trailing white space; no text item
    when that is empty. *)
Theorem C1_round_trip (now later : Time) (index : Z) (pre post : string)
    (ds ss : list string) (param : Params) (cache : gmap string ThinkingEntry) :
  let T := str_concat ds in
  let S := str_concat ss in
  T <> "" ->
  HasValidSignature S = true ->
  accOrEmpty (ToolCallsAccumulator param) !! index = None ->
  contains markerPrefix pre = false ->
  contains markerPrefix T = false ->
  contains markerPrefix post = false ->
  contains "<think>" pre = false ->
  contains "</think>" T = false ->
  contains "<think>" post = false ->
  0 <= later - now <= ThinkingCacheTTL ->
  roundTrip now later index pre post ds ss param cache
  = (framed pre T (GenerateThinkingID T) post,
     ThinkingPart T (Some S)
       :: textPart (TrimSpace (pre ++ newline ++ newline ++ post))).
Proof.
  intros T S HT HS Htools Hpm HTm Hqm Hpo HTc Hqo Hlater.
  unfold roundTrip, blockStream, at_time.
  rewrite map_app. cbn [map app run_stream ConvertClaudeResponseToOpenAI textDelta].
  destruct param as [created rid fin tools accs]. cbn [ToolCallsAccumulator] in Htools.
  rewrite map_app.
  fold (at_time now (thinkingBlock index ds ss)).
  rewrite run_stream_app.
  destruct (run_thinkingBlock "claude" now index created rid fin tools ds ss accs cache
              Htools) as (outs & param' & Hrun & Htl & Htxt).
  rewrite Hrun. fold T S in Hrun, Htxt |- *.
  rewrite (is_empty_false T HT).
  cbn [map run_stream ConvertClaudeResponseToOpenAI app textDelta].
  destruct param' as [c' r' f' t' a'].
  set (clientText := client_text _).
  assert (Hct : clientText = framed pre T (GenerateThinkingID T) post).
  { subst clientText.
    change (client_text (?a :: (outs ++ [?b])%list))
      with (client_text ([a] ++ outs ++ [b])%list).
    rewrite !client_text_app, Htxt. unfold framed.
    unfold client_text. cbn [concat app fold_right output_content deltaContent setContent].
    rewrite !app_empty_r, !app_assoc_str. reflexivity. }
  rewrite Hct. f_equal.
  set (id := GenerateThinkingID T).
  assert (Hidne : id <> "") by apply GenerateThinkingID_neq_empty.
  assert (Hidhex : str_forall is_hex_lower id = true) by apply GenerateThinkingID_hex.
  rewrite (extract_restored later _ id _ (mkThinkingEntry T S now)).
  - cbn [ThinkingText Signature].
    rewrite framed_remove_thinkTag, framed_remove_thinkId by assumption.
    reflexivity.
  - eapply FindStringSubmatch_of_find, framed_find_thinkId; assumption.
  - rewrite (GetCachedThinking_hit later id _ (mkThinkingEntry T S now)); auto.
    apply CacheThinking_lookup; assumption.
  - exact HS.
Qed.

Lemma C1_round_trip_witness :
  roundTrip 0 Hour 0 "" "The answer is 4." ["Let me "; "think."] [sampleSignature]
    initParams ∅
  = (framed "" "Let me think." (GenerateThinkingID "Let me think.") "The answer is 4.",
     [ThinkingPart "Let me think." (Some sampleSignature);
      TextPart "The answer is 4."]).
Proof.
  apply (C1_round_trip 0 Hour 0 "" "The answer is 4." ["Let me "; "think."]
           [sampleSignature] initParams ∅);
    try reflexivity; try discriminate.
  unfold ThinkingCacheTTL, Hour; lia.
Defined.

(** ** C5: the fallback of the request translator *)

(** C5, as stated, fails.  With nothing cached, the text of the item is
    not the text that the tag pair encloses (here [abc] between two
    line ends) but that text trimmed of white space (and with escaped
    fences unescaped); and a message with a marker and no tag pair gets
    no thinking item at all. *)
Lemma C5_fallback_text_is_not_literal :
  FindStringSubmatch thinkIdRegex sampleMessage = Some "ab12"
  /\ FindStringSubmatch thinkTagRegex sampleMessage
     = Some (newline ++ "abc" ++ newline)
  /\ fst (extractThinkingFromContent 0 sampleMessage ∅)
     = [ThinkingPart "abc" None; TextPart "Hello"]
  /\ "abc" <> newline ++ "abc" ++ newline
  /\ fst (extractThinkingFromContent 0
            ("```plaintext:thinkId:ab12```" ++ newline ++ "Hello") ∅)
     = [TextPart "Hello"].
Proof. vm_compute. repeat split. discriminate. Qed.

Lemma noUsableEntry_get (now : Time) (id : string)
    (cache : gmap string ThinkingEntry) :
  noUsableEntry now id cache ->
  match fst (GetCachedThinking now id cache) with
  | Some e => HasValidSignature (Signature e) = false
  | None => True
  end.
Proof.
  unfold GetCachedThinking.
  intros [H | [(e & H & Hexp) | (e & H & Hinv)]]; rewrite H;
    destruct (is_empty id); simpl; auto.
  - rewrite Sub_expired by assumption. exact I.
  - destruct (Sub now (Timestamp e) >? ThinkingCacheTTL); simpl; auto.
Qed.

(** C5 (amended): for a plain-text message whose first [thinkId] marker
    carries an identifier that was never cached, or whose entry has
    expired or carries an invalid signature, and which contains a
    [<think>]...[</think>] pair, the translator emits a thinking item
    without a signature field whose text is the text enclosed by the
    first pair with every escaped fence unescaped and then trimmed of
    leading and trailing white space; the rest of the message, tags and
    markers removed and trimmed, follows as a text item when it is not
    empty. *)
Theorem C5_fallback (now : Time) (text id body : string)
    (cache : gmap string ThinkingEntry) :
  FindStringSubmatch thinkIdRegex text = Some id ->
  noUsableEntry now id cache ->
  FindStringSubmatch thinkTagRegex text = Some body ->
  fst (extractThinkingFromContent now text cache)
  = ThinkingPart (TrimSpace (ReplaceAll body escapedTicks ticks)) None
    :: textPart (TrimSpace (ReplaceAllString thinkIdRegex
                              (ReplaceAllString thinkTagRegex text))).
Proof.
  intros Hid Hno Htag.
  apply (extract_fallback now text id body cache Hid); [|exact Htag].
  apply noUsableEntry_get, Hno.
Qed.

Lemma C5_fallback_witness :
  fst (extractThinkingFromContent 0 sampleMessage ∅)
  = ThinkingPart (TrimSpace (ReplaceAll (newline ++ "abc" ++ newline) escapedTicks ticks))
      None
    :: textPart (TrimSpace (ReplaceAllString thinkIdRegex
                              (ReplaceAllString thinkTagRegex sampleMessage))).
Proof.
  apply (C5_fallback 0 sampleMessage "ab12" (newline ++ "abc" ++ newline) ∅).
  - reflexivity.
  - left. reflexivity.
  - reflexivity.
Defined.

(** ** C10: the thinking cache accepts any signature *)

(** C10: [CacheThinking] stores the entry of a non-empty text under its
    identifier whatever the signature is, the empty one and one shorter
    than [MinValidSignatureLen] included.  When the stored signature is
    not valid, a later lookup of the identifier (within the TTL) hits,
    the entry fails [HasValidSignature], and the request translator
    takes the fallback: a thinking item without signature, built from
    the tag pair of the message. *)
Theorem C10_cache_accepts_any_signature (now later : Time) (T sig text body : string)
    (cache : gmap string ThinkingEntry) :
  T <> "" ->
  0 <= later - now <= ThinkingCacheTTL ->
  FindStringSubmatch thinkIdRegex text = Some (GenerateThinkingID T) ->
  FindStringSubmatch thinkTagRegex text = Some body ->
  let id := GenerateThinkingID T in
  let cache' := CacheThinking now id T sig cache in
  cache' !! id = Some (mkThinkingEntry T sig now)
  /\ fst (GetCachedThinking later id cache') = Some (mkThinkingEntry T sig now)
  /\ (HasValidSignature sig = false ->
      fst (extractThinkingFromContent later text cache')
      = ThinkingPart (TrimSpace (ReplaceAll body escapedTicks ticks)) None
        :: textPart (TrimSpace (ReplaceAllString thinkIdRegex
                                  (ReplaceAllString thinkTagRegex text)))).
Proof.
  intros HT Hlater Hid Htag id cache'.
  assert (Hl : cache' !! id = Some (mkThinkingEntry T sig now))
    by (apply CacheThinking_lookup; [apply GenerateThinkingID_neq_empty | exact HT]).
  split; [exact Hl|]. split.
  - rewrite (GetCachedThinking_hit later id cache' _
               (GenerateThinkingID_neq_empty T) Hl) by exact Hlater.
    reflexivity.
  - intros Hinv. apply (extract_fallback later text id body cache' Hid); [|exact Htag].
    apply noUsableEntry_get. right. right. eexists. split; [exact Hl | exact Hinv].
Qed.

Lemma C10_cache_accepts_any_signature_witness :
  let T := "Let me think." in
  let text := framed "" T (GenerateThinkingID T) "Done." in
  let cache' := CacheThinking 0 (GenerateThinkingID T) T "short" ∅ in
  cache' !! GenerateThinkingID T = Some (mkThinkingEntry T "short" 0)
  /\ fst (GetCachedThinking Hour (GenerateThinkingID T) cache')
     = Some (mkThinkingEntry T "short" 0)
  /\ (HasValidSignature "short" = false ->
      fst (extractThinkingFromContent Hour text cache')
      = ThinkingPart
          (TrimSpace (ReplaceAll (newline ++ T ++ newline) escapedTicks ticks)) None
        :: textPart (TrimSpace (ReplaceAllString thinkIdRegex
                                  (ReplaceAllString thinkTagRegex text)))).
Proof.
  intros T text cache'.
  apply (C10_cache_accepts_any_signature 0 Hour T "short" text
           (newline ++ T ++ newline) ∅).
  - discriminate.
  - unfold ThinkingCacheTTL, Hour; lia.
  - vm_compute; reflexivity.
  - vm_compute; reflexivity.
Defined.

(** ** C2: scenario A of the response translator *)





(** ** C6: ensureAssistantThinkingBlock *)

(** [lastAssistant] is the search of the source, from the last message
    down: the message it finds has role [assistant] and no message after
    it has. *)
Lemma lastAssistant_none (l : list json) :
  lastAssistant l = None <-> Forall (fun x => roleOf x <> "assistant") l.
Proof.
  induction l as [|z l IH]; simpl.
  - split; [constructor | reflexivity].
  - fold (roleOf z). destruct (lastAssistant l) as [a|].
    + split; [discriminate|]. intros H. inversion H as [|? ? _ Hl]; subst.
      apply IH in Hl. discriminate Hl.
    + destruct (String.eqb_spec (roleOf z) "assistant") as [Hz|Hz].
      * split; [discriminate|]. intros H. inversion H; subst. congruence.
      * split; [|reflexivity]. intros _. constructor; [exact Hz|].
        apply IH. reflexivity.
Qed.

Lemma lastAssistant_found (before after : list json) (m : json) :
  roleOf m = "assistant" ->
  Forall (fun x => roleOf x <> "assistant") after ->
  lastAssistant (before ++ m :: after) = Some m.
Proof.
  intros Hm Hafter. apply lastAssistant_none in Hafter.
  induction before as [|x before IH]; simpl.
  - rewrite Hafter. fold (roleOf m). rewrite Hm. reflexivity.
  - rewrite IH. reflexivity.
Qed.

Lemma lastAssistant_spec (messages : list json) (m : json) :
  lastAssistant messages = Some m <->
  exists before after,
    messages = (before ++ m :: after)%list
    /\ roleOf m = "assistant"
    /\ Forall (fun x => roleOf x <> "assistant") after.
Proof.
  split.
  - revert m. induction messages as [|x rest IH]; intros m; simpl; [discriminate|].
    destruct (lastAssistant rest) as [a|] eqn:E.
    + intros [= <-]. destruct (IH a eq_refl) as (b & af & -> & Hr & Hf).
      exists (x :: b), af. auto.
    + fold (roleOf x).
      destruct (String.eqb_spec (roleOf x) "assistant") as [Hx|Hx]; [|discriminate].
      intros [= <-]. exists [], rest. split; [reflexivity|]. split; [exact Hx|].
      apply lastAssistant_none, E.
  - intros (b & af & -> & Hr & Hf). apply lastAssistant_found; assumption.
Qed.






(** ** C8: normalizeClaudeBudget *)

Lemma assoc_get_set_eq (k : string) (f : option json -> json)
    (ms : list (string * json)) :
  assoc_get k (assoc_set k f ms) = Some (f (assoc_get k ms)).
Proof.
  induction ms as [|[k' v] r IH]; simpl.
  - rewrite String.eqb_refl. reflexivity.
  - destruct (String.eqb_spec k k') as [->|Hne]; simpl.
    + rewrite String.eqb_refl. reflexivity.
    + destruct (String.eqb_spec k k'); [congruence | exact IH].
Qed.

Lemma assoc_get_set_ne (k k0 : string) (f : option json -> json)
    (ms : list (string * json)) :
  k0 <> k -> assoc_get k0 (assoc_set k f ms) = assoc_get k0 ms.
Proof.
  intros Hne. induction ms as [|[k' v] r IH]; simpl.
  - destruct (String.eqb_spec k0 k); [congruence | reflexivity].
  - destruct (String.eqb_spec k k') as [->|Hk]; simpl.
    + destruct (String.eqb_spec k0 k'); [congruence | reflexivity].
    + rewrite IH. reflexivity.
Qed.

Lemma set_budget_get (ms : list (string * json)) (old new : Z) :
  gjson_Get (JObj ms) budgetPath = Some (JNum old) ->
  gjson_Get (sjson_Set budgetPath (JNum new) (Some (JObj ms))) budgetPath
  = Some (JNum new).
Proof.
  unfold budgetPath. cbn [gjson_Get get_key sjson_Set].
  rewrite assoc_get_set_eq.
  destruct (assoc_get "thinking" ms) as [[| | | | | |inner]|]; try discriminate.
  intros _. cbn [sjson_Set get_key]. rewrite assoc_get_set_eq. reflexivity.
Qed.

Lemma set_budget_keeps_max (ms : list (string * json)) (new : Z) :
  gjson_Get (sjson_Set budgetPath (JNum new) (Some (JObj ms))) ["max_tokens"]
  = gjson_Get (JObj ms) ["max_tokens"].
Proof.
  unfold budgetPath. cbn [gjson_Get get_key sjson_Set].
  rewrite assoc_get_set_ne by discriminate. reflexivity.
Qed.

Lemma set_max_get (ms : list (string * json)) (v : Z) :
  gjson_Get (sjson_Set ["max_tokens"] (JNum v) (Some (JObj ms))) ["max_tokens"]
  = Some (JNum v).
Proof. cbn [gjson_Get get_key sjson_Set]. rewrite assoc_get_set_eq. reflexivity. Qed.

Lemma set_max_keeps_budget (ms : list (string * json)) (v : Z) :
  gjson_Get (sjson_Set ["max_tokens"] (JNum v) (Some (JObj ms))) budgetPath
  = gjson_Get (JObj ms) budgetPath.
Proof.
  unfold budgetPath. cbn [gjson_Get get_key sjson_Set].
  rewrite assoc_get_set_ne by discriminate. reflexivity.
Qed.

(** C8, on the code: with an explicit [max_tokens] of 1 the budget 2048
    is at least [max_tokens], the shrunk value 0 is below the model
    minimum 1024, and yet the request does not keep its budget:
    [thinking.budget_tokens] becomes 0 (the test that abandons the
    shrink asks for a shrunk value above 0). *)
Lemma C8_shrink_below_minimum_is_written :
  Claude.normalizeClaudeBudget
    (JObj [("max_tokens", JNum 1); ("thinking", enabledThinking 2048)])
    2048 (Some claudeModel)
  = JObj [("max_tokens", JNum 1); ("thinking", enabledThinking 0)]
  /\ Claude.Apply (JObj [("max_tokens", JNum 1)])
       (mkConfig ModeBudget 2048 "" "" "") (Some claudeModel)
     = JObj [("max_tokens", JNum 1); ("thinking", enabledThinking 0)].
Proof. split; reflexivity. Qed.

(** What [normalizeClaudeBudget] does for a positive budget that the
    request carries, whenever the effective [max_tokens] is not 1: the
    behaviour of claim C8. *)
Lemma normalizeClaudeBudget_spec (ms : list (string * json)) (budget : Z)
    (mi : ModelInfo) (support : ThinkingSupport) :
  0 < budget ->
  Thinking mi = Some support ->
  gjson_Get (JObj ms) budgetPath = Some (JNum budget) ->
  let body := JObj ms in
  let explicit := gjson_Get body ["max_tokens"] in
  let effectiveMax :=
    if Exists explicit && (gjson_Int explicit >? 0) then gjson_Int explicit
    else if MaxCompletionTokens mi >? 0 then MaxCompletionTokens mi else 0 in
  let result := Claude.normalizeClaudeBudget body budget (Some mi) in
  effectiveMax <> 1 ->
  (* the effective max_tokens, written back when it is the model default *)
  Claude.effectiveMaxTokens body (Some mi)
  = (effectiveMax,
     negb (Exists explicit && (gjson_Int explicit >? 0))
     && (MaxCompletionTokens mi >? 0))
  /\ gjson_Get result ["max_tokens"]
     = (if Exists explicit && (gjson_Int explicit >? 0) then explicit
        else if MaxCompletionTokens mi >? 0
             then Some (JNum (MaxCompletionTokens mi)) else explicit)
  (* the budget: shrunk, or kept when the shrink would go below the minimum *)
  /\ gjson_Get result budgetPath
     = Some (JNum
         (if (effectiveMax >? 0) && (budget >=? effectiveMax) then
            if (Min support >? 0) && (effectiveMax - 1 <? Min support)
            then budget else effectiveMax - 1
          else budget)).
Proof.
  intros Hb Hsup Hget body explicit effectiveMax result Hne1.
  subst body.
  assert (Heff : Claude.effectiveMaxTokens (JObj ms) (Some mi)
                 = (effectiveMax,
                    negb (Exists explicit && (gjson_Int explicit >? 0))
                    && (MaxCompletionTokens mi >? 0))).
  { unfold Claude.effectiveMaxTokens. fold explicit. subst effectiveMax.
    destruct (Exists explicit && (gjson_Int explicit >? 0)); [reflexivity|].
    destruct (MaxCompletionTokens mi >? 0); reflexivity. }
  split; [exact Heff|].
  subst result. unfold Claude.normalizeClaudeBudget.
  rewrite Heff, Hsup.
  destruct (budget <=? 0) eqn:Hb0; [lia|].
  lazy beta iota zeta.
  match goal with
  | |- context [if ?c then sjson_Set ["max_tokens"] ?v ?b else JObj ms] =>
      set (body1 := if c then sjson_Set ["max_tokens"] v b else JObj ms)
  end.
  assert (Hb1 : exists ms1, body1 = JObj ms1
            /\ gjson_Get body1 budgetPath = Some (JNum budget)
            /\ gjson_Get body1 ["max_tokens"]
               = (if Exists explicit && (gjson_Int explicit >? 0) then explicit
                  else if MaxCompletionTokens mi >? 0
                       then Some (JNum (MaxCompletionTokens mi)) else explicit)).
  { subst body1 effectiveMax.
    destruct (Exists explicit && (gjson_Int explicit >? 0)); cbn [negb andb].
    - exists ms. auto.
    - destruct (MaxCompletionTokens mi >? 0) eqn:Hm; cbn [andb].
      + rewrite Hm. eexists. split; [reflexivity|].
        rewrite set_max_keeps_budget, set_max_get. auto.
      + exists ms. auto. }
  destruct Hb1 as (ms1 & Hbody1 & Hbud1 & Hmax1).
  clearbody body1. subst body1.
  set (adjusted := if (effectiveMax >? 0) && (budget >=? effectiveMax)
                   then effectiveMax - 1 else budget).
  destruct ((effectiveMax >? 0) && (budget >=? effectiveMax)) eqn:Hshrink.
  - apply andb_prop in Hshrink as [H1 H2].
    assert (0 < adjusted) by (subst adjusted; lia).
    assert (adjusted <> budget) by (subst adjusted; lia).
    replace (adjusted >? 0) with true by (symmetry; apply Z.gtb_lt; lia).
    rewrite andb_true_r.
    destruct ((Min support >? 0) && (adjusted <? Min support)) eqn:Hmin.
    + fold adjusted. rewrite Hmin. auto.
    + subst adjusted. rewrite Hmin.
      replace (effectiveMax - 1 =? budget) with false by (symmetry; apply Z.eqb_neq; lia).
      cbn [negb]. rewrite set_budget_keeps_max. split; [exact Hmax1|].
      eapply set_budget_get, Hbud1.
  - replace (adjusted >? 0) with true by (subst adjusted; symmetry; apply Z.gtb_lt; lia).
    subst adjusted. rewrite andb_true_r.
    destruct ((Min support >? 0) && (budget <? Min support)); [auto|].
    rewrite Z.eqb_refl. cbn [negb]. auto.
Qed.

(** ** C9: parseSuffixToConfig *)








(** ** C7: where ApplyThinking takes the configuration from *)





(** On that request the suffix budget 8192 replaces the body's 2048. *)
Example suffix_overrides_body :
  sampleApplyThinking
    (JObj [("max_tokens", JNum 64000); ("thinking", enabledThinking 2048)])
    "claude-sonnet-4-5(8192)"
  = (JObj [("max_tokens", JNum 64000); ("thinking", enabledThinking 8192)], None).
Proof. reflexivity. Qed.
